(** * typescript-vfs: an in-memory System, compiler host, language-service
    host and virtual TypeScript environment
    (packages/typescript-vfs/src/index.ts).

    Strings are modelled as Stdlib [string]s, one [ascii] per UTF-16 code
    unit, so JavaScript's [length], [slice] and [startsWith] are
    [String.length], [String.substring] and [String.prefix].  A JavaScript
    [Map<string, V>] is an association list kept in insertion order, as
    [Map.prototype.set] and [Map.prototype.keys] behave. *)

From Stdlib Require Import String Ascii List Bool Arith ZArith Lia.
From Stdlib Require Import Decimal DecimalString DecimalNat Relations Permutation.
Import ListNotations.

Local Open Scope string_scope.
Local Open Scope list_scope.

(** ** Thrown errors and a small state/exception monad *)

Inductive result (A : Type) : Type :=
| Ok (a : A)
| Throw (message : string).
Arguments Ok {A} a.
Arguments Throw {A} message.

(** A computation over a state [S]: a JavaScript [throw] returns the state
    reached at the point of the throw, so partial writes stay visible. *)
Definition ST (S A : Type) : Type := S -> result A * S.

Definition ret {S A} (a : A) : ST S A := fun s => (Ok a, s).

Definition bind {S A B} (m : ST S A) (k : A -> ST S B) : ST S B :=
  fun s => match m s with
           | (Ok a, s') => k a s'
           | (Throw e, s') => (Throw e, s')
           end.

Definition throw {S A} (e : string) : ST S A := fun s => (Throw e, s).
Definition gets {S A} (f : S -> A) : ST S A := fun s => (Ok (f s), s).
Definition modify {S} (f : S -> S) : ST S unit := fun s => (Ok tt, f s).

Notation "x <- m ;; k" := (bind m (fun x => k))
  (at level 61, m at next level, right associativity).
Notation "m ;;; k" := (bind m (fun _ => k))
  (at level 61, right associativity).

(** [notImplemented(methodName)] *)
Definition notImplemented {S A} (methodName : string) : ST S A :=
  throw ("Method '" ++ methodName ++ "' is not implemented.")%string.

(** ** JavaScript helpers *)

(** Truthiness of a string: only [""] is falsy. *)
Definition js_truthy (s : string) : bool := negb (String.eqb s "").

(** [s.slice(a, b)] and [s.slice(a)] for non-negative indices. *)
Definition js_slice (s : string) (a b : nat) : string :=
  String.substring a (b - a) s.
Definition js_slice_from (s : string) (a : nat) : string :=
  String.substring a (String.length s - a) s.

(** [Array.prototype.includes] on strings. *)
Definition includes (xs : list string) (x : string) : bool :=
  existsb (String.eqb x) xs.

(** [n.toString()] for a non-negative integer. *)
Definition nat_toString (n : nat) : string :=
  NilEmpty.string_of_uint (Nat.to_uint n).

(** ** JavaScript [Map<string, V>] *)

Definition jsmap (V : Type) : Type := list (string * V).

Fixpoint map_get {V} (m : jsmap V) (k : string) : option V :=
  match m with
  | [] => None
  | (k', v) :: r => if String.eqb k k' then Some v else map_get r k
  end.

Definition map_has {V} (m : jsmap V) (k : string) : bool :=
  match map_get m k with Some _ => true | None => false end.

(** [set] overwrites in place, or appends a new key at the end. *)
Fixpoint map_set {V} (m : jsmap V) (k : string) (v : V) : jsmap V :=
  match m with
  | [] => [(k, v)]
  | (k', v') :: r => if String.eqb k k' then (k, v) :: r else (k', v') :: map_set r k v
  end.

Definition map_keys {V} (m : jsmap V) : list string := map fst m.

(** ** createSystem: the System over the private copy of the files map *)

Module Sys.

Definition store := jsmap string.

Definition directoryExists (files : store) (directory : string) : bool :=
  existsb (fun path => String.prefix directory path) (map_keys files).

Definition fileExists (files : store) (fileName : string) : bool :=
  map_has files fileName.

Definition readDirectory (files : store) (directory : string) : list string :=
  if String.eqb directory "/" then map_keys files else [].

Definition readFile (files : store) (fileName : string) : option string :=
  map_get files fileName.

Definition writeFile (fileName contents : string) : ST store unit :=
  modify (fun files => map_set files fileName contents).

Definition getCurrentDirectory : string := "/".

Definition createDirectory : ST store unit := notImplemented "createDirectory".
Definition exit : ST store unit := notImplemented "exit".
Definition getExecutingFilePath : ST store string := notImplemented "getExecutingFilePath".
Definition write : ST store unit := notImplemented "write".

End Sys.

(** ** TypeScript's path functions (the engine's [path.ts])

    The engine names every source file it parses, and keys every file of a
    program, through these functions.  They are part of the TypeScript
    engine, not of this repository; they are translated from its source. *)

Module Path.

Definition isAnyDirectorySeparator (c : ascii) : bool :=
  Ascii.eqb c "/"%char || Ascii.eqb c "\"%char.

(** [normalizeSlashes]: every backslash becomes a slash. *)
Fixpoint normalizeSlashes (path : string) : string :=
  match path with
  | EmptyString => EmptyString
  | String c r => String (if Ascii.eqb c "\"%char then "/"%char else c) (normalizeSlashes r)
  end.

(** [path.charCodeAt(i) === c]; out of range is [NaN], never equal. *)
Definition charIs (s : string) (i : nat) (c : ascii) : bool :=
  match String.get i s with Some d => Ascii.eqb d c | None => false end.

Definition separatorAt (s : string) (i : nat) : bool :=
  match String.get i s with Some c => isAnyDirectorySeparator c | None => false end.

Definition isVolumeCharacter (c : ascii) : bool :=
  let n := nat_of_ascii c in
  (Nat.leb 97 n && Nat.leb n 122) || (Nat.leb 65 n && Nat.leb n 90).

Definition volumeCharAt (s : string) (i : nat) : bool :=
  match String.get i s with Some c => isVolumeCharacter c | None => false end.

(** [s.indexOf(sub, from)], [-1] as [None]. *)
Definition indexOf (s sub : string) (from : nat) : option nat := String.index from sub s.

Definition getFileUrlVolumeSeparatorEnd (url : string) (start : nat) : option nat :=
  if charIs url start ":"%char then Some (S start)
  else if charIs url start "%"%char && charIs url (S start) "3"%char
          && (charIs url (start + 2) "a"%char || charIs url (start + 2) "A"%char)
  then Some (start + 3)
  else None.

(** The URL case of [getEncodedRootLength]: the root length, encoded as
    negative in the source, here paired with [true]. *)
Definition urlRootLength (path : string) : nat * bool :=
  match indexOf path "://" 0 with
  | None => (0, false)
  | Some schemeEnd =>
      let authorityStart := schemeEnd + 3 in
      match indexOf path "/" authorityStart with
      | None => (String.length path, true)
      | Some authorityEnd =>
          let scheme := String.substring 0 schemeEnd path in
          let authority := String.substring authorityStart (authorityEnd - authorityStart) path in
          let fileVolume :=
            if String.eqb scheme "file"
               && (String.eqb authority "" || String.eqb authority "localhost")
               && volumeCharAt path (S authorityEnd)
            then match getFileUrlVolumeSeparatorEnd path (authorityEnd + 2) with
                 | Some volumeSeparatorEnd =>
                     if charIs path volumeSeparatorEnd "/"%char then Some (S volumeSeparatorEnd)
                     else if Nat.eqb volumeSeparatorEnd (String.length path)
                     then Some volumeSeparatorEnd else None
                 | None => None
                 end
            else None in
          match fileVolume with
          | Some n => (n, true)
          | None => (S authorityEnd, true)
          end
      end
  end.

(** [getEncodedRootLength]: POSIX root ["/"], UNC root ["//server/"], DOS
    root ["c:/"] or ["c:"], or a URL root (second component [true]). *)
Definition getEncodedRootLength (path : string) : nat * bool :=
  match String.get 0 path with
  | None => (0, false)
  | Some ch0 =>
      if isAnyDirectorySeparator ch0 then
        if negb (charIs path 1 ch0) then (1, false)
        else match indexOf path (if Ascii.eqb ch0 "/"%char then "/" else "\") 2 with
             | None => (String.length path, false)
             | Some p1 => (S p1, false)
             end
      else if isVolumeCharacter ch0 && charIs path 1 ":"%char && separatorAt path 2 then (3, false)
      else if isVolumeCharacter ch0 && charIs path 1 ":"%char
              && Nat.eqb (String.length path) 2 then (2, false)
      else urlRootLength path
  end.

Definition getRootLength (path : string) : nat := fst (getEncodedRootLength path).

Definition isRootedDiskPath (path : string) : bool :=
  let (n, isUrl) := getEncodedRootLength path in negb isUrl && Nat.ltb 0 n.

Definition hasTrailingDirectorySeparator (path : string) : bool :=
  match String.length path with 0 => false | S k => separatorAt path k end.

Definition ensureTrailingDirectorySeparator (path : string) : string :=
  if hasTrailingDirectorySeparator path then path else (path ++ "/")%string.

Definition removeTrailingDirectorySeparator (path : string) : string :=
  if Nat.ltb 1 (String.length path) && hasTrailingDirectorySeparator path
  then String.substring 0 (String.length path - 1) path else path.

(** [s.split("/")]: [""] splits into [[""]]. *)
Fixpoint split (s : string) : list string :=
  match s with
  | EmptyString => [""]
  | String c r =>
      let parts := split r in
      if Ascii.eqb c "/"%char then "" :: parts
      else match parts with
           | p :: ps => String c p :: ps
           | [] => [String c ""]
           end
  end.

(** [pathComponents(path, rootLength)]: the root, then the segments, a
    trailing empty segment dropped. *)
Definition pathComponents (path : string) (rootLength : nat) : list string :=
  let root := String.substring 0 rootLength path in
  let rest := split (String.substring rootLength (String.length path - rootLength) path) in
  let rest := if js_truthy (last rest "") then rest else removelast rest in
  root :: rest.

(** [combinePaths(path, relativePath)] *)
Definition combinePaths (path relativePath : string) : string :=
  let path := if js_truthy path then normalizeSlashes path else path in
  if negb (js_truthy relativePath) then path
  else
    let relativePath := normalizeSlashes relativePath in
    if negb (js_truthy path) || negb (Nat.eqb (getRootLength relativePath) 0)
    then relativePath
    else (ensureTrailingDirectorySeparator path ++ relativePath)%string.

Definition getPathComponents (path currentDirectory : string) : list string :=
  let path := combinePaths currentDirectory path in
  pathComponents path (getRootLength path).

(** One iteration of [reducePathComponents]' loop, on the reduced
    components kept in reverse order. *)
Definition reduceStep (reduced : list string) (component : string) : list string :=
  if negb (js_truthy component) || String.eqb component "." then reduced
  else if String.eqb component ".." then
    match reduced with
    | top :: ((_ :: _) as below) =>
        if String.eqb top ".." then component :: reduced else below
    | [root] => if js_truthy root then reduced else component :: reduced
    | [] => component :: reduced
    end
  else component :: reduced.

Definition reducePathComponents (components : list string) : list string :=
  match components with
  | [] => []
  | root :: rest => List.rev (fold_left reduceStep rest [root])
  end.

Definition getPathFromPathComponents (pathComponents : list string) : string :=
  match pathComponents with
  | [] => ""
  | root :: rest =>
      ((if js_truthy root then ensureTrailingDirectorySeparator root else root)
       ++ String.concat "/" rest)%string
  end.

(** [relativePathSegmentRegExp.test(path)]: a [//], or a [.] or [..] segment. *)
Definition hasRelativePathSegment (path : string) : bool :=
  match indexOf path "//" 0 with Some _ => true | None => false end
  || existsb (fun seg => String.eqb seg "." || String.eqb seg "..") (split path).

(** [path.replace(/\/\.\//g, "/")] *)
Fixpoint replaceSlashDotSlash (path : string) : string :=
  match path with
  | String "/"%char (String "."%char (String "/"%char r)) =>
      String "/"%char (replaceSlashDotSlash r)
  | String c r => String c (replaceSlashDotSlash r)
  | EmptyString => EmptyString
  end.

(** [path.replace(/^\.\//, "")] *)
Definition removeLeadingDotSlash (path : string) : string :=
  match path with
  | String "."%char (String "/"%char r) => r
  | _ => path
  end.

(** [normalizePath(path)] *)
Definition normalizePath (path : string) : string :=
  let path := normalizeSlashes path in
  if negb (hasRelativePathSegment path) then path
  else
    let simplified := removeLeadingDotSlash (replaceSlashDotSlash path) in
    if negb (String.eqb simplified path) && negb (hasRelativePathSegment simplified)
    then simplified
    else
      let path := simplified in
      let normalized :=
        getPathFromPathComponents (reducePathComponents (getPathComponents path "")) in
      if js_truthy normalized && hasTrailingDirectorySeparator path
      then ensureTrailingDirectorySeparator normalized else normalized.

Definition getNormalizedAbsolutePath (fileName currentDirectory : string) : string :=
  getPathFromPathComponents (reducePathComponents (getPathComponents fileName currentDirectory)).

(** [toPath(fileName, basePath, getCanonicalFileName)] with the hosts'
    identity [getCanonicalFileName]. *)
Definition toPath (fileName basePath : string) : string :=
  if isRootedDiskPath fileName then normalizePath fileName
  else getNormalizedAbsolutePath fileName basePath.

(** [path.lastIndexOf("/") + 1] *)
Fixpoint lastSlashEnd_from (s : string) (i acc : nat) : nat :=
  match s with
  | EmptyString => acc
  | String c r => lastSlashEnd_from r (S i) (if Ascii.eqb c "/"%char then S i else acc)
  end.
Definition lastSlashEnd (s : string) : nat := lastSlashEnd_from s 0 0.

Definition getBaseFileName (path : string) : string :=
  let path := normalizeSlashes path in
  if Nat.eqb (getRootLength path) (String.length path) then ""
  else
    let path := removeTrailingDirectorySeparator path in
    let start := Nat.max (getRootLength path) (lastSlashEnd path) in
    String.substring start (String.length path - start) path.

(** [hasExtension]: the base name contains a dot. *)
Definition hasExtension (fileName : string) : bool :=
  match indexOf (getBaseFileName fileName) "." 0 with Some _ => true | None => false end.

(** [fileExtensionIs(path, extension)] *)
Definition fileExtensionIs (path extension : string) : bool :=
  Nat.ltb (String.length extension) (String.length path)
  && String.eqb (String.substring (String.length path - String.length extension)
                                  (String.length extension) path) extension.

End Path.

(** ** The state of one virtual TypeScript environment *)

(** A parsed [SourceFile]; its language-version tag is the fixed
    [mergedCompilerOptions.target] and is left implicit. *)
Record SourceFile : Type := mkSourceFile {
  sf_fileName : string;
  sf_text : string
}.

(** [ts.createSourceFile(fileName, content, target, false)]: the parser
    names the file [normalizePath(fileName)]. *)
Definition ts_createSourceFile (fileName content : string) : SourceFile :=
  mkSourceFile (Path.normalizePath fileName) content.

Record TextSpan : Type := mkTextSpan {
  span_start : nat;
  span_length : nat
}.

(** [ts.updateSourceFile(sourceFile, newText, {span, newLength})]: its
    [Debug.assert] of the change's lengths throws; an empty change returns
    [sourceFile] itself; otherwise the text is parsed again under the
    file's name. *)
Definition ts_updateSourceFile (sourceFile : SourceFile) (newText : string)
    (span : TextSpan) (newLength : nat) : result SourceFile :=
  let oldText := sf_text sourceFile in
  if negb (Z.eqb (Z.of_nat (String.length oldText) - Z.of_nat (span_length span)
                  + Z.of_nat newLength)
                 (Z.of_nat (String.length newText)))
  then Throw "Debug Failure. False expression."
  else if Nat.eqb (span_length span) 0 && Nat.eqb newLength 0 then Ok sourceFile
  else Ok (ts_createSourceFile (sf_fileName sourceFile) newText).

Record Env : Type := mkEnv {
  env_files : Sys.store;              (* the System's private Map *)
  env_sourceFiles : jsmap SourceFile; (* createVirtualCompilerHost: sourceFiles *)
  env_fileNames : list string;        (* createVirtualLanguageServiceHost: fileNames *)
  env_fileVersions : jsmap string;    (* fileVersions *)
  env_projectVersion : nat            (* projectVersion *)
}.

Definition set_files (f : Sys.store) (st : Env) : Env :=
  mkEnv f (env_sourceFiles st) (env_fileNames st) (env_fileVersions st) (env_projectVersion st).
Definition set_sourceFiles (c : jsmap SourceFile) (st : Env) : Env :=
  mkEnv (env_files st) c (env_fileNames st) (env_fileVersions st) (env_projectVersion st).
Definition set_fileNames (n : list string) (st : Env) : Env :=
  mkEnv (env_files st) (env_sourceFiles st) n (env_fileVersions st) (env_projectVersion st).
Definition set_fileVersions (v : jsmap string) (st : Env) : Env :=
  mkEnv (env_files st) (env_sourceFiles st) (env_fileNames st) v (env_projectVersion st).
Definition set_projectVersion (n : nat) (st : Env) : Env :=
  mkEnv (env_files st) (env_sourceFiles st) (env_fileNames st) (env_fileVersions st) n.

(** Run a System action on the environment's files. *)
Definition on_files {A} (m : ST Sys.store A) : ST Env A :=
  fun st => let (r, f) := m (env_files st) in (r, set_files f st).

(** ** createVirtualCompilerHost *)

Module CompilerHost.

(** [updateFile(sourceFile)]: returns whether the path was cached. *)
Definition updateFile (sourceFile : SourceFile) : ST Env bool :=
  alreadyExists <- gets (fun st => map_has (env_sourceFiles st) (sf_fileName sourceFile)) ;;
  on_files (Sys.writeFile (sf_fileName sourceFile) (sf_text sourceFile)) ;;;
  modify (fun st => set_sourceFiles
            (map_set (env_sourceFiles st) (sf_fileName sourceFile) sourceFile) st) ;;;
  ret alreadyExists.

End CompilerHost.

(** ** createVirtualLanguageServiceHost *)

Module LSHost.

Definition getProjectVersion (st : Env) : string := nat_toString (env_projectVersion st).


(** [getScriptSnapshot]: [Some text] stands for [ScriptSnapshot.fromString(text)],
    [None] for the [undefined] returned when [contents] is falsy. *)
Definition getScriptSnapshot (st : Env) (fileName : string) : option string :=
  match Sys.readFile (env_files st) fileName with
  | Some contents => if js_truthy contents then Some contents else None
  | None => None
  end.

(** [fileVersions.get(fileName) || '0'] *)
Definition getScriptVersion (st : Env) (fileName : string) : string :=
  match map_get (env_fileVersions st) fileName with
  | Some v => if js_truthy v then v else "0"
  | None => "0"
  end.

Definition updateFile (sourceFile : SourceFile) : ST Env unit :=
  let name := sf_fileName sourceFile in
  modify (fun st => set_projectVersion (S (env_projectVersion st)) st) ;;;
  modify (fun st => set_fileVersions
            (map_set (env_fileVersions st) name (nat_toString (env_projectVersion st))) st) ;;;
  modify (fun st => if negb (includes (env_fileNames st) name)
                    then set_fileNames (env_fileNames st ++ [name]) st else st) ;;;
  CompilerHost.updateFile sourceFile ;;;
  ret tt.

End LSHost.

(** ** The language service's program (the TypeScript engine)

    [languageService.getProgram()] runs the engine's [createProgram] over the
    host, outside this repository.  The part of it the facade relies on is
    translated here: how the root files and the default library enter the
    program, how a program file is looked up, and which diagnostics
    [getCompilerOptionsDiagnostics] reports, for the facade's default options
    (the caller sets none of [lib], [noLib], [types], [allowJs],
    [allowNonTsExtensions] or [resolveJsonModule], and no option the engine
    rejects).  What depends on parsing and checking the files' text is the
    [Engine]'s. *)

Record Engine : Type := mkEngine {
  (** Whether a file met while processing the root files carries a
      no-default-lib=true reference directive, so that [createProgram]
      skips the default library. *)
  skipDefaultLib : Env -> bool;
  (** The files [createProgram] adds by following the references, imports
      and lib references of the files it holds, in the order it meets them. *)
  referencedFiles : Env -> list string;
  (** The checker's global diagnostics, each formatted as
      [ts.formatDiagnostics] prints it. *)
  globalDiagnostics : Env -> list string
}.

(** [getDefaultLibFileName] of the compiler host, line 84. *)
Definition defaultLibFileName : string := "/lib.es2015.d.ts".

Definition supportedTSExtensions : list string :=
  [".ts"; ".tsx"; ".d.ts"; ".cts"; ".d.cts"; ".mts"; ".d.mts"].
Definition supportedJSExtensions : list string := [".js"; ".jsx"; ".mjs"; ".cjs"].
(** [supportedExtensions[0]], tried in turn on a name without extension. *)
Definition extensionsToTry : list string := [".ts"; ".tsx"; ".d.ts"].

(** The diagnostics [createProgram] records while processing a root file. *)
Inductive Diagnostic : Type :=
| FileNotFound (fileName : string)            (* TS6053 *)
| UnsupportedExtension (fileName : string)    (* TS6054 *)
| JavaScriptFile (fileName : string)          (* TS6504 *)
| CouldNotResolve (fileName : string)         (* TS6231 *)
| GlobalDiagnostic (formatted : string).      (* the checker's *)

Definition newLine : string := String (ascii_of_nat 10) EmptyString.

Definition quoteList (xs : list string) : string :=
  String.concat ", " (map (fun x => "'" ++ x ++ "'") xs)%string.

(** [ts.formatDiagnostics] on a diagnostic without a file:
    [error TS<code>: <message>] and the host's new line. *)
Definition formatDiagnostic (d : Diagnostic) : string :=
  match d with
  | FileNotFound n => "error TS6053: File '" ++ n ++ "' not found." ++ newLine
  | UnsupportedExtension n =>
      "error TS6054: File '" ++ n ++ "' has an unsupported extension. "
      ++ "The only supported extensions are " ++ quoteList supportedTSExtensions ++ "." ++ newLine
  | JavaScriptFile n =>
      "error TS6504: File '" ++ n ++ "' is a JavaScript file. "
      ++ "Did you mean to enable the 'allowJs' option?" ++ newLine
  | CouldNotResolve n =>
      "error TS6231: Could not resolve the path '" ++ n ++ "' with the extensions: "
      ++ quoteList extensionsToTry ++ "." ++ newLine
  | GlobalDiagnostic s => s
  end%string.

(** Whether the host gives the engine a snapshot of [fileName]. *)
Definition hasSnapshot (st : Env) (fileName : string) : bool :=
  match LSHost.getScriptSnapshot st fileName with Some _ => true | None => false end.

(** [getSourceFileFromReferenceWorker] for a root file: the name under which
    the program gets a source file, or the diagnostic recorded instead. *)
Definition getSourceFileFromReferenceWorker (st : Env) (fileName : string)
    : option string * list Diagnostic :=
  if Path.hasExtension fileName then
    if existsb (Path.fileExtensionIs fileName) supportedTSExtensions then
      if hasSnapshot st fileName then (Some fileName, []) else (None, [FileNotFound fileName])
    else if existsb (Path.fileExtensionIs fileName) supportedJSExtensions
    then (None, [JavaScriptFile fileName])
    else (None, [UnsupportedExtension fileName])
  else
    match find (hasSnapshot st) (map (fun ext => fileName ++ ext)%string extensionsToTry) with
    | Some n => (Some n, [])
    | None => (None, [CouldNotResolve fileName])
    end.

(** [processRootFile(fileName)] *)
Definition processRootFile (st : Env) (fileName : string) : option string * list Diagnostic :=
  getSourceFileFromReferenceWorker st (Path.normalizePath fileName).

Definition option_list {A} (o : option A) : list A :=
  match o with Some a => [a] | None => [] end.

(** [rootNames.length && !skipDefaultLib]: the default library is processed. *)
Definition processesDefaultLib (eng : Engine) (st : Env) : bool :=
  match env_fileNames st with [] => false | _ => negb (skipDefaultLib eng st) end.

(** The names of the program's source files: the root files, the default
    library, then the files reached from them. *)
Definition programFileNames (eng : Engine) (st : Env) : list string :=
  flat_map (fun r => option_list (fst (processRootFile st r))) (env_fileNames st)
  ++ (if processesDefaultLib eng st
      then option_list (fst (processRootFile st defaultLibFileName)) else [])
  ++ filter (hasSnapshot st) (referencedFiles eng st).

(** [program.getSourceFile(fileName)]: [filesByName.get(toPath(fileName))],
    the first program file with that path, parsed from its snapshot. *)
Definition program_getSourceFile (eng : Engine) (st : Env) (fileName : string)
    : option SourceFile :=
  match find (fun n => String.eqb (Path.toPath n "/") (Path.toPath fileName "/"))
             (programFileNames eng st) with
  | Some n => match LSHost.getScriptSnapshot st n with
              | Some text => Some (ts_createSourceFile n text)
              | None => None
              end
  | None => None
  end.

(** [languageService.getCompilerOptionsDiagnostics()]: the program's option
    and global diagnostics, in the engine's order. *)
Definition compilerOptionsDiagnostics (eng : Engine) (st : Env) : list Diagnostic :=
  flat_map (fun r => snd (processRootFile st r)) (env_fileNames st)
  ++ (if processesDefaultLib eng st then snd (processRootFile st defaultLibFileName) else [])
  ++ (match env_fileNames st with
      | [] => []
      | _ => map GlobalDiagnostic (globalDiagnostics eng st)
      end).

(** ** createVirtualTypeScriptEnvironment *)

Module Facade.

(** The host state built at lines 181-183: [createSystem(files)] (the
    caller's [sys]) and the root files. *)
Definition create (files : Sys.store) (rootFiles : list string) : Env :=
  mkEnv files [] rootFiles [] 0.

(** [ts.formatDiagnostics(diagnostics, host)] *)
Definition formatDiagnostics (ds : list Diagnostic) : string :=
  String.concat "" (map formatDiagnostic ds).

(** The constructor, lines 181-196: it throws when the engine reports a
    diagnostic for the options. *)
Definition construct (eng : Engine) (files : Sys.store) (rootFiles : list string)
    : result Env :=
  let st := create files rootFiles in
  match compilerOptionsDiagnostics eng st with
  | [] => Ok st
  | ds => Throw (formatDiagnostics ds)
  end.

Definition createFile (fileName content : string) : ST Env unit :=
  LSHost.updateFile (ts_createSourceFile fileName content).

(** [getProgram()!.getSourceFile(fileName)!], whose [.text] throws a
    [TypeError] on [undefined]. *)
Definition prevSourceFile (eng : Engine) (fileName : string) : ST Env SourceFile :=
  fun st => match program_getSourceFile eng st fileName with
            | Some sf => (Ok sf, st)
            | None => (Throw "TypeError: Cannot read properties of undefined (reading 'text')", st)
            end.

Definition liftResult {A} (r : result A) : ST Env A := fun st => (r, st).

(** Lines 204-213: the [newSourceFile] that [updateFile] computes. *)
Definition newSourceFile (eng : Engine) (fileName content : string) (prevTextSpan : TextSpan)
    : ST Env SourceFile :=
  prev <- prevSourceFile eng fileName ;;
  let prevFullContents := sf_text prev in
  let newText :=
    (js_slice prevFullContents 0 (span_start prevTextSpan) ++
     content ++
     js_slice_from prevFullContents (span_start prevTextSpan + span_length prevTextSpan))%string in
  liftResult (ts_updateSourceFile prev newText prevTextSpan (String.length content)).

Definition updateFile (eng : Engine) (fileName content : string) (prevTextSpan : TextSpan)
    : ST Env unit :=
  sf <- newSourceFile eng fileName content prevTextSpan ;;
  LSHost.updateFile sf.

(** A call on the facade, as a caller issues it. *)
Inductive Op : Type :=
| OpCreateFile (fileName content : string)
| OpUpdateFile (fileName content : string) (span : TextSpan).

(** The source file a call hands to the host's [updateFile]. *)
Definition unitOf (eng : Engine) (o : Op) : ST Env SourceFile :=
  match o with
  | OpCreateFile p c => ret (ts_createSourceFile p c)
  | OpUpdateFile p c sp => newSourceFile eng p c sp
  end.

Definition run_op (eng : Engine) (o : Op) : ST Env unit :=
  match o with
  | OpCreateFile p c => createFile p c
  | OpUpdateFile p c sp => updateFile eng p c sp
  end.

(** A caller issuing [os] in order, catching each error; the project
    version token is read after every call that returned. *)
Fixpoint exec (eng : Engine) (os : list Op) (st : Env) : list string * Env :=
  match os with
  | [] => ([], st)
  | o :: os' =>
      match run_op eng o st with
      | (Ok _, st1) => let (obs, st2) := exec eng os' st1 in
                       (LSHost.getProjectVersion st1 :: obs, st2)
      | (Throw _, st1) => exec eng os' st1
      end
  end.

(** The names of the source files that the calls [os], issued in order,
    hand to the host's [updateFile]: one per call that returns. *)
Fixpoint written (eng : Engine) (os : list Op) (st : Env) : list string :=
  match os with
  | [] => []
  | o :: os' =>
      let st1 := snd (run_op eng o st) in
      match fst (run_op eng o st), fst (unitOf eng o st) with
      | Ok _, Ok sf => sf_fileName sf :: written eng os' st1
      | _, _ => written eng os' st1
      end
  end.

End Facade.

(** The engine on files without reference directives, imports or lib
    references, as in the examples below: it reaches no further files and
    never skips the default library.  Its global diagnostics are asked only
    when there are root files at construction, which no example has. *)
Definition plainEngine : Engine :=
  {| skipDefaultLib := fun _ => false;
     referencedFiles := fun _ => [];
     globalDiagnostics := fun _ => [] |}.

(** ** knownLibFilesForTarget *)

Module LibFiles.

Definition files : list string := [
  "lib.d.ts";
  "lib.dom.d.ts";
  "lib.dom.iterable.d.ts";
  "lib.es5.d.ts";
  "lib.es6.d.ts";
  "lib.es2015.collection.d.ts";
  "lib.es2015.core.d.ts";
  "lib.es2015.d.ts";
  "lib.es2015.generator.d.ts";
  "lib.es2015.iterable.d.ts";
  "lib.es2015.promise.d.ts";
  "lib.es2015.proxy.d.ts";
  "lib.es2015.reflect.d.ts";
  "lib.es2015.symbol.d.ts";
  "lib.es2015.symbol.wellknown.d.ts";
  "lib.es2016.array.include.d.ts";
  "lib.es2016.d.ts";
  "lib.es2016.full.d.ts";
  "lib.es2017.d.ts";
  "lib.es2017.full.d.ts";
  "lib.es2017.intl.d.ts";
  "lib.es2017.object.d.ts";
  "lib.es2017.sharedmemory.d.ts";
  "lib.es2017.string.d.ts";
  "lib.es2017.typedarrays.d.ts";
  "lib.es2018.asyncgenerator.d.ts";
  "lib.es2018.asynciterable.d.ts";
  "lib.es2018.d.ts";
  "lib.es2018.full.d.ts";
  "lib.es2018.intl.d.ts";
  "lib.es2018.promise.d.ts";
  "lib.es2018.regexp.d.ts";
  "lib.es2019.array.d.ts";
  "lib.es2019.d.ts";
  "lib.es2019.full.d.ts";
  "lib.es2019.object.d.ts";
  "lib.es2019.string.d.ts";
  "lib.es2019.symbol.d.ts";
  "lib.es2020.d.ts";
  "lib.es2020.full.d.ts";
  "lib.es2020.string.d.ts";
  "lib.es2020.symbol.wellknown.d.ts";
  "lib.esnext.array.d.ts";
  "lib.esnext.asynciterable.d.ts";
  "lib.esnext.bigint.d.ts";
  "lib.esnext.d.ts";
  "lib.esnext.full.d.ts";
  "lib.esnext.intl.d.ts";
  "lib.esnext.symbol.d.ts"
].

(** [String.prototype.toLowerCase] on ASCII letters. *)
Definition ascii_toLower (c : ascii) : ascii :=
  let n := nat_of_ascii c in
  if Nat.leb 65 n && Nat.leb n 90 then ascii_of_nat (n + 32) else c.

Fixpoint toLowerCase (s : string) : string :=
  match s with
  | EmptyString => EmptyString
  | String c r => String (ascii_toLower c) (toLowerCase r)
  end.

(** [Array.prototype.pop] read as the value it returns. *)
Fixpoint pop (xs : list string) : option string :=
  match xs with
  | [] => None
  | [x] => Some x
  | _ :: r => pop r
  end.

(** [Array.prototype.indexOf]: [-1] when absent, in particular for [undefined]. *)
Fixpoint indexOf_from (xs : list string) (x : string) (i : Z) : Z :=
  match xs with
  | [] => (-1)%Z
  | y :: r => if String.eqb y x then i else indexOf_from r x (i + 1)%Z
  end.

Definition indexOf (xs : list string) (x : option string) : Z :=
  match x with
  | Some s => indexOf_from xs s 0
  | None => (-1)%Z
  end.

(** [files.slice(0, n)] for [0 <= n]. *)
Definition slice_to (xs : list string) (n : Z) : list string := firstn (Z.to_nat n) xs.

Definition matchesTarget (targetToCut f : string) : bool :=
  String.prefix ("lib." ++ toLowerCase targetToCut)%string f.

(** [knownLibFilesForTarget(target, ts)], given [targetToCut = ts.ScriptTarget[target]],
    the enum member's name. *)
Definition knownLibFilesForTarget (targetToCut : string) : list string :=
  let matches := filter (matchesTarget targetToCut) files in
  let cutIndex := indexOf files (pop matches) in
  slice_to files (cutIndex + 1).

End LibFiles.

(** ** createSystem with the caller's Map in a shared heap

    The caller's [Map] and the System's own [Map] are objects in a heap;
    [new Map(files)] allocates a fresh object holding a copy of the entries. *)

Module Heap.

Definition loc := nat.
Definition heap := list Sys.store.

Definition deref (h : heap) (l : loc) : Sys.store := nth l h [].

Fixpoint update (h : heap) (l : loc) (m : Sys.store) : heap :=
  match h, l with
  | [], _ => []
  | _ :: r, O => m :: r
  | x :: r, S l' => x :: update r l' m
  end.

(** [new Map(files)] *)
Definition new_Map (h : heap) (files : loc) : heap * loc :=
  (h ++ [deref h files], length h).

Record System : Type := mkSystem { sys_files : loc }.

Definition createSystem (h : heap) (files : loc) : heap * System :=
  let (h', l) := new_Map h files in (h', mkSystem l).

Definition directoryExists (h : heap) (s : System) (d : string) : bool :=
  Sys.directoryExists (deref h (sys_files s)) d.
Definition fileExists (h : heap) (s : System) (p : string) : bool :=
  Sys.fileExists (deref h (sys_files s)) p.
Definition readDirectory (h : heap) (s : System) (d : string) : list string :=
  Sys.readDirectory (deref h (sys_files s)) d.
Definition readFile (h : heap) (s : System) (p : string) : option string :=
  Sys.readFile (deref h (sys_files s)) p.
Definition writeFile (h : heap) (s : System) (p c : string) : heap :=
  update h (sys_files s) (map_set (deref h (sys_files s)) p c).

(** The caller's own [m.set(k, v)] on the Map at [l]. *)
Definition caller_set (h : heap) (l : loc) (k v : string) : heap :=
  update h l (map_set (deref h l) k v).

End Heap.

(** ** Compiler options: object spread and the merged options *)

(** A JavaScript value held by a compiler-options object; enum members are
    their numeric values. *)
Inductive jsval : Type :=
| JUndefined
| JBool (b : bool)
| JNum (n : nat)
| JStr (s : string).

Definition js_truthy_val (v : jsval) : bool :=
  match v with
  | JUndefined => false
  | JBool b => b
  | JNum n => negb (Nat.eqb n 0)
  | JStr s => js_truthy s
  end.

(** [a || b] *)
Definition js_or (a b : jsval) : jsval := if js_truthy_val a then a else b.

(** An object's own properties in order. *)
Definition jsobj : Type := jsmap jsval.

(** The properties of [src] spread into [acc], as [{ ...acc, ...src }] does. *)
Definition spread (acc src : jsobj) : jsobj :=
  fold_left (fun o kv => map_set o (fst kv) (snd kv)) src acc.

(** [o.k]: [undefined] when there is no such property. *)
Definition prop (o : jsobj) (k : string) : jsval :=
  match map_get o k with Some v => v | None => JUndefined end.

Module Options.

(** [ts.JsxEmit.React], [ts.ScriptTarget.ES2015], [ts.ModuleKind.ESNext],
    [ts.ModuleResolutionKind.NodeJs]. *)
Definition JsxEmit_React : jsval := JNum 2.
Definition ScriptTarget_ES2015 : jsval := JNum 2.
Definition ModuleKind_ESNext : jsval := JNum 99.
Definition ModuleResolutionKind_NodeJs : jsval := JNum 2.

Definition fixedDefaults : jsobj := [
  ("jsx", JsxEmit_React);
  ("strict", JBool true);
  ("target", ScriptTarget_ES2015);
  ("esModuleInterop", JBool true);
  ("module", ModuleKind_ESNext);
  ("suppressOutputPathCheck", JBool true);
  ("skipLibCheck", JBool true);
  ("skipDefaultLibCheck", JBool true);
  ("moduleResolution", ModuleResolutionKind_NodeJs)
].

(** [defaultCompilerOptions(ts)], given [ts.getDefaultCompilerOptions()]. *)
Definition defaultCompilerOptions (tsDefaults : jsobj) : jsobj :=
  spread (spread [] tsDefaults) fixedDefaults.

(** [{ ...defaultCompilerOptions(ts), ...compilerOptions }] *)
Definition mergedCompilerOptions (tsDefaults compilerOptions : jsobj) : jsobj :=
  spread (spread [] (defaultCompilerOptions tsDefaults)) compilerOptions.

(** The language version [createVirtualCompilerHost]'s [getSourceFile]
    parses at: [compilerOptions.target || defaultCompilerOptions(ts).target]. *)
Definition getSourceFile_languageVersion (tsDefaults compilerOptions : jsobj) : jsval :=
  js_or (prop compilerOptions "target") (prop (defaultCompilerOptions tsDefaults) "target").

(** The language version the facade's [createFile] parses at:
    [mergedCompilerOptions.target]. *)
Definition createFile_languageVersion (merged : jsobj) : jsval :=
  prop merged "target".

End Options.

(** ** createVirtualCompilerHost: getSourceFile *)

Section GetSourceFile.

(** [ts.createSourceFile(fileName, undefined, ...)], reached when the path
    is neither cached nor stored, is the engine's business. *)
Variable parseUndefined : string -> ST Env SourceFile.

(** [save(sourceFile)] *)
Definition save (sourceFile : SourceFile) : ST Env SourceFile :=
  modify (fun st => set_sourceFiles
            (map_set (env_sourceFiles st) (sf_fileName sourceFile) sourceFile) st) ;;;
  ret sourceFile.

(** [sourceFiles.get(fileName) || save(ts.createSourceFile(fileName, sys.readFile(fileName)!, ...))] *)
Definition getSourceFile (fileName : string) : ST Env SourceFile :=
  fun st =>
    match map_get (env_sourceFiles st) fileName with
    | Some sf => (Ok sf, st)
    | None =>
        match Sys.readFile (env_files st) fileName with
        | Some text => save (ts_createSourceFile fileName text) st
        | None => bind (parseUndefined fileName) save st
        end
    end.

End GetSourceFile.

(** ** Library maps: createDefaultMapFromNodeModules and createDefaultMapFromCDN *)

Module LibMaps.

(** [fsMap.set('/' + lib, text)] for every [(lib, text)], in order. *)
Definition fill (entries : list (string * string)) (fsMap : jsmap string) : jsmap string :=
  fold_left (fun m e => map_set m ("/" ++ fst e) (snd e)) entries fsMap.

Section NodeModules.

(** [getLib(name)]: [fs.readFileSync] of the lib file in the installed
    typescript package. *)
Variable getLib : string -> string.

(** [createDefaultMapFromNodeModules(target)], given [ts.ScriptTarget[target]]. *)
Definition createDefaultMapFromNodeModules (targetToCut : string) : jsmap string :=
  fill (map (fun lib => (lib, getLib lib)) (LibFiles.knownLibFilesForTarget targetToCut)) [].

End NodeModules.

Definition cdnPrefix (version : string) : string :=
  "https://tswebinfra.blob.core.windows.net/cdn/" ++ version ++ "/typescript/lib/".

Definition cacheKey (version lib : string) : string :=
  "ts-lib-" ++ version ++ "-" ++ lib.

(** [Storage.removeItem] *)
Fixpoint map_delete {V} (m : jsmap V) (k : string) : jsmap V :=
  match m with
  | [] => []
  | (k', v) :: r => if String.eqb k k' then r else (k', v) :: map_delete r k
  end.

Section CDN.

(** [(await fetchlike(url)).text()] for a request that succeeds. *)
Variable fetchText : string -> string.
(** [zip]/[unzip]: lz-string's UTF-16 compression, or the identity. *)
Variable zip : string -> string.

(** [uncached()]: every lib fetched, then [fsMap] filled in [files] order. *)
Definition uncached (version : string) (files : list string) : jsmap string :=
  fill (map (fun lib => (lib, fetchText (cdnPrefix version ++ lib))) files) [].

(** The first loop of [cached()] over [Object.keys(localStorage)]. *)
Definition dropStale (version : string) (storage : jsmap string) (key : string) : jsmap string :=
  if String.prefix "ts-lib-" key && negb (String.prefix ("ts-lib-" ++ version) key)
  then map_delete storage key else storage.

Definition removeStale (version : string) (lsKeys : list string) (storage : jsmap string) :=
  fold_left (dropStale version) lsKeys storage.

(** [!content] for [storelike.getItem(cacheKey)] ([null] is [None]). *)
Definition cacheMiss (content : option string) : bool :=
  match content with Some c => negb (js_truthy c) | None => true end.

(** The libs [cached()] fetches: those whose cache entry is missing or empty
    once the stale keys are gone ([getItem] runs for every lib before any
    response arrives). *)
Definition missingLibs (version : string) (storage : jsmap string) (files : list string) :=
  filter (fun lib => cacheMiss (map_get storage (cacheKey version lib))) files.

(** The storage once the fetches of [cached()] have resolved, in the order
    [arrived]: each callback runs [storelike.setItem(name, zip(t))], where
    [name] is the global [name] (the window's name), not [cacheKey]. *)
Definition cachedStorage (version globalName : string) (lsKeys : list string)
    (storage : jsmap string) (arrived : list string) : jsmap string :=
  fold_left (fun st lib => map_set st globalName (zip (fetchText (cdnPrefix version ++ lib))))
    arrived (removeStale version lsKeys storage).

End CDN.

End LibMaps.

(** ** Invariants of the environment state *)

(** Every cached source file is stored under its own path and carries the
    text the store holds for that path. *)
Definition Coherent (st : Env) : Prop :=
  forall p sf, map_get (env_sourceFiles st) p = Some sf ->
    sf_fileName sf = p /\ Sys.readFile (env_files st) p = Some (sf_text sf).

(** Every recorded file version is the decimal string of some
    [1 <= k <= projectVersion], and two paths never share one. *)
Definition VersionsUnique (st : Env) : Prop :=
  (forall p v, map_get (env_fileVersions st) p = Some v ->
     exists k, v = nat_toString k /\ 1 <= k <= env_projectVersion st)
  /\ (forall p q v, p <> q -> map_get (env_fileVersions st) p = Some v ->
        map_get (env_fileVersions st) q <> Some v).

(** ** Auxiliary definitions for the proofs *)

(** The state after [LSHost.updateFile sf]. *)
Definition ls_post (sf : SourceFile) (st : Env) : Env :=
  let name := sf_fileName sf in
  mkEnv (map_set (env_files st) name (sf_text sf))
        (map_set (env_sourceFiles st) name sf)
        (if includes (env_fileNames st) name then env_fileNames st
         else env_fileNames st ++ [name])
        (map_set (env_fileVersions st) name (nat_toString (S (env_projectVersion st))))
        (S (env_projectVersion st)).

(** The prior text with [f] spliced in at [sp], in prior-content coordinates:
    [T[0:start] + f + T[start+length:]]. *)
Definition splice (T f : string) (sp : TextSpan) : string :=
  (String.substring 0 (span_start sp) T ++ f ++
   String.substring (span_start sp + span_length sp)
     (String.length T - (span_start sp + span_length sp)) T)%string.

Definition step (eng : Engine) (st st' : Env) : Prop :=
  exists o r, Facade.run_op eng o st = (r, st').

Definition reachable (eng : Engine) : Env -> Env -> Prop := clos_refl_trans_1n Env (step eng).

Fixpoint nodupb (xs : list string) : bool :=
  match xs with
  | [] => true
  | x :: r => negb (includes r x) && nodupb r
  end.

(** ** Small evaluations *)

Example scenario_patch :
  let st0 := Facade.create [("/a.ts", "let x = 1;")] [] in
  let st1 := snd (Facade.createFile "/a.ts" "let x = 1;" st0) in
  let st2 := snd (Facade.updateFile plainEngine "/a.ts" "2" (mkTextSpan 8 1) st1) in
  Sys.readFile (env_files st2) "/a.ts" = Some "let x = 2;"
  /\ LSHost.getProjectVersion st2 = "2"
  /\ LSHost.getScriptVersion st2 "/a.ts" = "2".
Proof. vm_compute. repeat split. Qed.

Example toString_12 : nat_toString 12 = "12".
Proof. reflexivity. Qed.

Example libs_es2015 :
  LibFiles.knownLibFilesForTarget "ES2015" = firstn 15 LibFiles.files
  /\ LibFiles.knownLibFilesForTarget "ESNext" = LibFiles.files
  /\ LibFiles.knownLibFilesForTarget "ES3" = [].
Proof. vm_compute. repeat split. Qed.

(** ** Map laws *)

Lemma map_get_set_eq {V} (m : jsmap V) k v : map_get (map_set m k v) k = Some v.
Proof.
  induction m as [|[k' v'] r IH]; simpl.
  - rewrite String.eqb_refl. reflexivity.
  - destruct (String.eqb k k') eqn:E; simpl.
    + rewrite String.eqb_refl. reflexivity.
    + rewrite E. exact IH.
Qed.

Lemma map_get_set_neq {V} (m : jsmap V) k k' v :
  k <> k' -> map_get (map_set m k v) k' = map_get m k'.
Proof.
  intros Hne. induction m as [|[k0 v0] r IH]; simpl.
  - destruct (String.eqb k' k) eqn:E; [apply String.eqb_eq in E; congruence | reflexivity].
  - destruct (String.eqb k k0) eqn:E; simpl.
    + apply String.eqb_eq in E. subst k0.
      destruct (String.eqb k' k) eqn:E'; [apply String.eqb_eq in E'; congruence | reflexivity].
    + destruct (String.eqb k' k0); [reflexivity | exact IH].
Qed.

Lemma map_has_keys {V} (m : jsmap V) k : map_has m k = true <-> In k (map_keys m).
Proof.
  unfold map_has, map_keys. induction m as [|[k' v'] r IH]; simpl.
  - split; [discriminate | tauto].
  - destruct (String.eqb k k') eqn:E.
    + apply String.eqb_eq in E. subst. tauto.
    + rewrite IH. split; [tauto|]. intros [H|H]; [|exact H].
      subst. rewrite String.eqb_refl in E. discriminate.
Qed.

Lemma includes_In xs x : includes xs x = true <-> In x xs.
Proof.
  unfold includes. rewrite existsb_exists. split.
  - intros [y [Hy E]]. apply String.eqb_eq in E. subst. exact Hy.
  - intros H. exists x. split; [exact H | apply String.eqb_refl].
Qed.

Lemma nat_toString_inj a b : nat_toString a = nat_toString b -> a = b.
Proof.
  unfold nat_toString. intros H.
  assert (Hu : Nat.to_uint a = Nat.to_uint b).
  { apply (f_equal NilEmpty.uint_of_string) in H.
    rewrite !NilEmpty.usu in H. congruence. }
  rewrite <- (DecimalNat.Unsigned.of_to a), <- (DecimalNat.Unsigned.of_to b), Hu.
  reflexivity.
Qed.

Lemma tokens_NoDup a n : NoDup (map nat_toString (seq a n)).
Proof.
  revert a. induction n as [|n IH]; intros a; simpl; constructor.
  - rewrite in_map_iff. intros [x [Hx Hin]].
    apply nat_toString_inj in Hx. apply in_seq in Hin. lia.
  - apply IH.
Qed.

(** ** One host update *)

Lemma LSHost_updateFile_spec sf st :
  LSHost.updateFile sf st = (Ok tt, ls_post sf st).
Proof.
  unfold LSHost.updateFile, CompilerHost.updateFile, ls_post, bind, modify, gets, ret,
    on_files, Sys.writeFile; simpl.
  destruct (includes (env_fileNames st) (sf_fileName sf)); reflexivity.
Qed.

Lemma string_length_append s t :
  String.length (s ++ t) = String.length s + String.length t.
Proof. induction s as [|c s IH]; simpl; [reflexivity | rewrite IH; reflexivity]. Qed.

Lemma substring_length n m s :
  String.length (String.substring n m s) = Nat.min m (String.length s - n).
Proof.
  revert n m. induction s as [|c s IH]; intros n m.
  - destruct n, m; reflexivity.
  - destruct n as [|n].
    + destruct m as [|m]; [reflexivity|]. simpl. rewrite IH. simpl. lia.
    + simpl. apply IH.
Qed.

Definition typeError : string :=
  "TypeError: Cannot read properties of undefined (reading 'text')".

(** [newSourceFile] reads the program and the previous file only. *)
Lemma newSourceFile_spec eng p c sp st :
  Facade.newSourceFile eng p c sp st =
  match program_getSourceFile eng st p with
  | None => (Throw typeError, st)
  | Some prev => (ts_updateSourceFile prev (splice (sf_text prev) c sp) sp (String.length c), st)
  end.
Proof.
  unfold Facade.newSourceFile, bind, Facade.prevSourceFile, Facade.liftResult.
  destruct (program_getSourceFile eng st p) as [prev|]; [|reflexivity].
  unfold js_slice, js_slice_from, splice. rewrite Nat.sub_0_r. reflexivity.
Qed.

(** [updateSourceFile]'s length check on the spliced text fails exactly
    for a non-empty span reaching past the end of the previous text. *)
Lemma ts_updateSourceFile_splice prev c sp :
  ts_updateSourceFile prev (splice (sf_text prev) c sp) sp (String.length c) =
  if Nat.ltb 0 (span_length sp)
     && Nat.ltb (String.length (sf_text prev)) (span_start sp + span_length sp)
  then Throw "Debug Failure. False expression."
  else if Nat.eqb (span_length sp) 0 && Nat.eqb (String.length c) 0 then Ok prev
  else Ok (ts_createSourceFile (sf_fileName prev) (splice (sf_text prev) c sp)).
Proof.
  unfold ts_updateSourceFile, splice.
  rewrite !string_length_append, !substring_length.
  set (T := String.length (sf_text prev)).
  set (s := span_start sp). set (L := span_length sp). set (n := String.length c).
  destruct (Z.eqb (Z.of_nat T - Z.of_nat L + Z.of_nat n)
                  (Z.of_nat (Nat.min s (T - 0) + (n + Nat.min (T - (s + L)) (T - (s + L))))))
    eqn:E; simpl.
  - apply Z.eqb_eq in E.
    destruct (Nat.ltb 0 L && Nat.ltb T (s + L)) eqn:C; [|reflexivity].
    apply andb_true_iff in C. destruct C as [C1 C2].
    apply Nat.ltb_lt in C1, C2. exfalso. lia.
  - apply Z.eqb_neq in E.
    destruct (Nat.ltb 0 L && Nat.ltb T (s + L)) eqn:C; [reflexivity|].
    exfalso. apply E.
    apply andb_false_iff in C. destruct C as [C|C]; apply Nat.ltb_ge in C; lia.
Qed.

Lemma createFile_spec p c st :
  Facade.createFile p c st = (Ok tt, ls_post (ts_createSourceFile p c) st).
Proof. apply LSHost_updateFile_spec. Qed.

Lemma unitOf_pure eng o st : exists r, Facade.unitOf eng o st = (r, st).
Proof.
  destruct o as [p c | p c sp]; simpl; [eexists; reflexivity|].
  rewrite newSourceFile_spec.
  destruct (program_getSourceFile eng st p); eexists; reflexivity.
Qed.

(** A facade call either hands its source file to one host update, or
    throws with the state untouched. *)
Lemma run_op_spec eng o st :
  (exists sf, fst (Facade.unitOf eng o st) = Ok sf
              /\ Facade.run_op eng o st = (Ok tt, ls_post sf st))
  \/ (exists e, fst (Facade.unitOf eng o st) = Throw e
                /\ Facade.run_op eng o st = (Throw e, st)).
Proof.
  assert (H : Facade.run_op eng o st
              = match Facade.unitOf eng o st with
                | (Ok sf, st1) => LSHost.updateFile sf st1
                | (Throw e, st1) => (Throw e, st1)
                end) by (destruct o; reflexivity).
  rewrite H. destruct (unitOf_pure eng o st) as [r Hr]. rewrite Hr. simpl.
  destruct r as [sf|e].
  - left. exists sf. split; [reflexivity | apply LSHost_updateFile_spec].
  - right. exists e. split; reflexivity.
Qed.

Lemma updateFile_missing eng st p f sp :
  program_getSourceFile eng st p = None ->
  Facade.updateFile eng p f sp st = (Throw typeError, st).
Proof.
  intros H. unfold Facade.updateFile, bind. rewrite newSourceFile_spec, H. reflexivity.
Qed.

(** When the program has a source file for [p] and the span lies within its
    text, patching is the same call as creating the spliced text under that
    file's name, state and all (unless span and fragment are both empty). *)
Lemma updateFile_as_createFile eng st p f sp prev :
  program_getSourceFile eng st p = Some prev ->
  span_start sp + span_length sp <= String.length (sf_text prev) ->
  0 < span_length sp \/ 0 < String.length f ->
  Facade.updateFile eng p f sp st
  = Facade.createFile (sf_fileName prev) (splice (sf_text prev) f sp) st.
Proof.
  intros Hp Hin Hne. unfold Facade.updateFile, bind.
  rewrite newSourceFile_spec, Hp, ts_updateSourceFile_splice.
  destruct (Nat.ltb 0 (span_length sp)
            && Nat.ltb (String.length (sf_text prev)) (span_start sp + span_length sp)) eqn:C.
  - apply andb_true_iff in C. destruct C as [_ C]. apply Nat.ltb_lt in C. lia.
  - destruct (Nat.eqb (span_length sp) 0 && Nat.eqb (String.length f) 0) eqn:D.
    + apply andb_true_iff in D. destruct D as [D1 D2].
      apply Nat.eqb_eq in D1, D2. lia.
    + reflexivity.
Qed.

(** Without any snapshot, the program has no source file. *)
Lemma program_none_without_snapshots eng st p :
  (forall n, LSHost.getScriptSnapshot st n = None) ->
  program_getSourceFile eng st p = None.
Proof.
  intros H. unfold program_getSourceFile.
  destruct (find _ _) as [n|]; [rewrite H|]; reflexivity.
Qed.

(** Construction without root files consults no engine result and succeeds. *)
Lemma construct_without_roots eng files :
  Facade.construct eng files [] = Ok (Facade.create files []).
Proof. reflexivity. Qed.

(** C1 (code defect): the store holds [""] for ["/a.ts"] after
    [createFile("/a.ts", "")] on an environment constructed without roots;
    splicing ["x"] at span (0, 0) should store ["x"], as
    [createFile("/a.ts", "x")] does, but [updateFile] throws a [TypeError]
    and the file keeps [""]: [getScriptSnapshot] treats the empty text as
    missing, so the program has no source file for the path, whatever the
    engine finds in the files. *)
Theorem C1_updateFile_empty_prior_throws :
  forall eng : Engine,
  let st1 := snd (Facade.createFile "/a.ts" "" (Facade.create [] [])) in
  Facade.construct eng [] [] = Ok (Facade.create [] [])
  /\ splice "" "x" (mkTextSpan 0 0) = "x"
  /\ Sys.readFile (env_files (snd (Facade.createFile "/a.ts" "x" st1))) "/a.ts" = Some "x"
  /\ Facade.updateFile eng "/a.ts" "x" (mkTextSpan 0 0) st1
     = (Throw "TypeError: Cannot read properties of undefined (reading 'text')", st1)
  /\ Sys.readFile (env_files st1) "/a.ts" = Some "".
Proof.
  intros eng st1. split; [reflexivity|]. split; [reflexivity|].
  split; [vm_compute; reflexivity|]. split; [|vm_compute; reflexivity].
  apply updateFile_missing, program_none_without_snapshots.
  intros n. unfold st1. rewrite createFile_spec.
  unfold LSHost.getScriptSnapshot, Sys.readFile. simpl.
  destruct (String.eqb n (Path.normalizePath "/a.ts")); reflexivity.
Qed.

(** C2 (code defect): [createFile(P, C)] writes under [normalizePath(P)]:
    there [readFile] gives [C], and [getScriptSnapshot] a snapshot of [C]
    exactly when [C] is not empty; for [C = ""] it gives [undefined].
    Under a spelling [P] that normalization changes, such as
    ["/x/../a.ts"], both give [undefined]. *)
Theorem C2_createFile_read_snapshot :
  forall st p c,
    Sys.readFile (env_files (snd (Facade.createFile p c st))) (Path.normalizePath p) = Some c
    /\ (LSHost.getScriptSnapshot (snd (Facade.createFile p c st)) (Path.normalizePath p)
        = Some c <-> c <> "")
    /\ LSHost.getScriptSnapshot
         (snd (Facade.createFile "/a.ts" "" (Facade.create [] []))) "/a.ts" = None
    /\ Sys.readFile
         (env_files (snd (Facade.createFile "/x/../a.ts" "abc" (Facade.create [] []))))
         "/x/../a.ts" = None
    /\ LSHost.getScriptSnapshot
         (snd (Facade.createFile "/x/../a.ts" "abc" (Facade.create [] []))) "/x/../a.ts" = None
    /\ Sys.readFile
         (env_files (snd (Facade.createFile "/x/../a.ts" "abc" (Facade.create [] []))))
         "/a.ts" = Some "abc".
Proof.
  intros st p c.
  split; [|split; [|split; [vm_compute; reflexivity | split; [vm_compute; reflexivity
          | split; vm_compute; reflexivity]]]].
  - rewrite createFile_spec. simpl. unfold Sys.readFile. apply map_get_set_eq.
  - rewrite createFile_spec. unfold LSHost.getScriptSnapshot, Sys.readFile. simpl.
    rewrite map_get_set_eq. unfold js_truthy. split.
    + destruct (String.eqb c "") eqn:E; simpl; [discriminate|].
      intros _ Hc. subst. discriminate.
    + intros Hc. destruct (String.eqb c "") eqn:E; simpl; [|reflexivity].
      apply String.eqb_eq in E. contradiction.
Qed.

(** C3: along any sequence of facade calls, each call that returns bumps the
    project version by exactly one and a call that throws leaves it alone; so
    the tokens read after the calls are the decimal strings of consecutive
    numbers above the start, pairwise distinct, and the counter never drops. *)
Theorem C3_projectVersion_increasing :
  forall eng os st,
    let (obs, st') := Facade.exec eng os st in
    obs = map nat_toString (seq (S (env_projectVersion st)) (length obs))
    /\ env_projectVersion st' = env_projectVersion st + length obs
    /\ NoDup obs.
Proof.
  intros eng. induction os as [|o os IH]; intros st; simpl.
  - repeat split; [lia | constructor].
  - destruct (run_op_spec eng o st) as [[sf [_ Hr]] | [e [_ Hr]]]; rewrite Hr.
    + specialize (IH (ls_post sf st)).
      destruct (Facade.exec eng os (ls_post sf st)) as [obs st'] eqn:Ex.
      simpl in IH. destruct IH as [Hobs [Hpv Hnd]].
      simpl. split; [|split].
      * unfold LSHost.getProjectVersion. simpl. f_equal. exact Hobs.
      * lia.
      * assert (Hall : LSHost.getProjectVersion (ls_post sf st) :: obs
                       = map nat_toString (seq (S (env_projectVersion st))
                                               (length (LSHost.getProjectVersion (ls_post sf st) :: obs)))).
        { unfold LSHost.getProjectVersion. simpl. f_equal. exact Hobs. }
        rewrite Hall. apply tokens_NoDup.
    + apply IH.
Qed.

(** C4 (as amended): [updateFile(P, F, S)] throws exactly when the program
    has no source file for [P] (a [TypeError] on its [text]), or when [S] is
    not empty and reaches past the end of that file's text ([updateSourceFile]'s
    length check); and whenever it throws, the state it leaves is the state it
    was called in: store, parsed-unit cache, project version, file versions
    and root-file list are all unchanged. *)
Theorem C4_updateFile_throw_iff_no_write :
  forall eng st p f sp,
    (forall e st', Facade.updateFile eng p f sp st = (Throw e, st') -> st' = st)
    /\ ((exists e, fst (Facade.updateFile eng p f sp st) = Throw e)
        <-> program_getSourceFile eng st p = None
            \/ (exists prev, program_getSourceFile eng st p = Some prev
                  /\ 0 < span_length sp
                  /\ String.length (sf_text prev) < span_start sp + span_length sp))
    /\ (program_getSourceFile eng st p = None ->
        Facade.updateFile eng p f sp st
        = (Throw "TypeError: Cannot read properties of undefined (reading 'text')", st))
    /\ (forall prev, program_getSourceFile eng st p = Some prev ->
        0 < span_length sp ->
        String.length (sf_text prev) < span_start sp + span_length sp ->
        Facade.updateFile eng p f sp st = (Throw "Debug Failure. False expression.", st)).
Proof.
  intros eng st p f sp.
  unfold Facade.updateFile, bind. rewrite newSourceFile_spec.
  destruct (program_getSourceFile eng st p) as [prev|] eqn:Hp.
  - rewrite ts_updateSourceFile_splice.
    destruct (Nat.ltb 0 (span_length sp)
              && Nat.ltb (String.length (sf_text prev)) (span_start sp + span_length sp)) eqn:C.
    + apply andb_true_iff in C. destruct C as [C1 C2]. apply Nat.ltb_lt in C1, C2.
      split; [intros e st' H; inversion H; reflexivity|].
      split; [split; [intros _; right; exists prev; tauto | intros _; eexists; reflexivity]|].
      split; [discriminate|]. intros prev' H _ _. inversion H; subst. reflexivity.
    + assert (Hok : forall sf, fst (LSHost.updateFile sf st) = Ok tt)
        by (intros sf; rewrite LSHost_updateFile_spec; reflexivity).
      destruct (Nat.eqb (span_length sp) 0 && Nat.eqb (String.length f) 0).
      * split; [intros e st' H; rewrite LSHost_updateFile_spec in H; discriminate|].
        split; [|split; [discriminate|]].
        -- split; [intros [e He]; rewrite Hok in He; discriminate|].
           intros [H|[prev' [H [H1 H2]]]]; [discriminate|]. inversion H; subst.
           apply andb_false_iff in C. destruct C as [C|C]; apply Nat.ltb_ge in C; lia.
        -- intros prev' H H1 H2. inversion H; subst.
           apply andb_false_iff in C. destruct C as [C|C]; apply Nat.ltb_ge in C; lia.
      * split; [intros e st' H; rewrite LSHost_updateFile_spec in H; discriminate|].
        split; [|split; [discriminate|]].
        -- split; [intros [e He]; rewrite Hok in He; discriminate|].
           intros [H|[prev' [H [H1 H2]]]]; [discriminate|]. inversion H; subst.
           apply andb_false_iff in C. destruct C as [C|C]; apply Nat.ltb_ge in C; lia.
        -- intros prev' H H1 H2. inversion H; subst.
           apply andb_false_iff in C. destruct C as [C|C]; apply Nat.ltb_ge in C; lia.
  - split; [intros e st' H; inversion H; reflexivity|].
    split; [split; [intros _; left; reflexivity | intros _; eexists; reflexivity]|].
    split; [intros _; reflexivity | intros prev H; discriminate].
Qed.

Lemma run_op_fileVersions_other eng o st p :
  (forall sf, fst (Facade.unitOf eng o st) = Ok sf -> sf_fileName sf <> p) ->
  map_get (env_fileVersions (snd (Facade.run_op eng o st))) p
  = map_get (env_fileVersions st) p.
Proof.
  intros Hne.
  destruct (run_op_spec eng o st) as [[sf [Hu Hr]] | [e [_ Hr]]]; rewrite Hr; simpl;
    [|reflexivity].
  apply map_get_set_neq. apply Hne. exact Hu.
Qed.

(** C5 (as amended): a path [P] under which no call writes keeps the
    baseline version token ["0"], whatever calls run before: the calls that
    return write under the names of the source files they hand to the host
    ([normalizePath] of the path for [createFile]). *)
Theorem C5_unwritten_path_baseline_version :
  forall eng os st p,
    map_get (env_fileVersions st) p = None ->
    ~ In p (Facade.written eng os st) ->
    LSHost.getScriptVersion (snd (Facade.exec eng os st)) p = "0".
Proof.
  intros eng. induction os as [|o os IH]; intros st p Hnone Hnin.
  - unfold LSHost.getScriptVersion. simpl. rewrite Hnone. reflexivity.
  - simpl in Hnin |- *.
    destruct (run_op_spec eng o st) as [[sf [Hu Hr]] | [e [Hu Hr]]];
      rewrite Hu, Hr in *; simpl in Hnin.
    + destruct (Facade.exec eng os (ls_post sf st)) as [obs st2] eqn:Ex. simpl.
      assert (H1 : map_get (env_fileVersions (ls_post sf st)) p = None).
      { simpl. rewrite map_get_set_neq; [exact Hnone|]. intros E. apply Hnin. left. exact E. }
      specialize (IH (ls_post sf st) p H1). rewrite Ex in IH. apply IH.
      intros H. apply Hnin. right. exact H.
    + apply IH; assumption.
Qed.

(** ** Root-file list *)




(** C7: [directoryExists(D)] holds exactly when some stored path starts with
    [D]; [readDirectory("/")] lists exactly the stored paths, and any other
    directory lists nothing. *)
Theorem C7_directoryExists_readDirectory :
  forall (files : Sys.store) d,
    (Sys.directoryExists files d = true
       <-> exists p, Sys.fileExists files p = true /\ String.prefix d p = true)
    /\ (forall p, In p (Sys.readDirectory files "/") <-> Sys.fileExists files p = true)
    /\ (d <> "/" -> Sys.readDirectory files d = []).
Proof.
  intros files d. unfold Sys.directoryExists, Sys.fileExists, Sys.readDirectory.
  split; [|split].
  - rewrite existsb_exists. split.
    + intros [p [Hin Hp]]. exists p. rewrite map_has_keys. tauto.
    + intros [p [Hin Hp]]. exists p. rewrite <- map_has_keys. tauto.
  - intros p. simpl. rewrite map_has_keys. tauto.
  - intros Hd. destruct (String.eqb d "/") eqn:E; [|reflexivity].
    apply String.eqb_eq in E. contradiction.
Qed.

(** ** knownLibFilesForTarget *)

Lemma nodupb_NoDup xs : nodupb xs = true -> NoDup xs.
Proof.
  induction xs as [|x r IH]; simpl; intros H; constructor.
  - apply andb_true_iff in H as [H _]. apply negb_true_iff in H.
    intros Hin. apply includes_In in Hin. congruence.
  - apply andb_true_iff in H as [_ H]. apply IH, H.
Qed.

Lemma files_NoDup : NoDup LibFiles.files.
Proof. apply nodupb_NoDup. vm_compute. reflexivity. Qed.

Lemma filter_last_split (p : string -> bool) xs :
  filter p xs <> [] ->
  exists a f b, xs = a ++ f :: b /\ p f = true /\ filter p b = [].
Proof.
  induction xs as [|x xs IH] using rev_ind; simpl; intros H; [congruence|].
  rewrite filter_app in H. simpl in H.
  destruct (p x) eqn:Px.
  - exists xs, x, []. repeat split; assumption.
  - rewrite app_nil_r in H. destruct (IH H) as [a [f [b [Hxs [Pf Hb]]]]].
    exists a, f, (b ++ [x]). subst xs. repeat split.
    + rewrite <- app_assoc. reflexivity.
    + exact Pf.
    + rewrite filter_app, Hb. simpl. rewrite Px. reflexivity.
Qed.

Lemma pop_snoc xs x : LibFiles.pop (xs ++ [x]) = Some x.
Proof.
  induction xs as [|y [|z r] IH]; simpl; try reflexivity.
  simpl in IH. exact IH.
Qed.

Lemma indexOf_from_app a f b i :
  ~ In f a -> LibFiles.indexOf_from (a ++ f :: b) f i = (i + Z.of_nat (length a))%Z.
Proof.
  revert i. induction a as [|y a IH]; intros i Hnin; simpl.
  - rewrite String.eqb_refl. lia.
  - destruct (String.eqb y f) eqn:E.
    + apply String.eqb_eq in E. subst. exfalso. apply Hnin. left. reflexivity.
    + rewrite IH; [lia|]. intros H. apply Hnin. right. exact H.
Qed.

Lemma firstn_app_cons (a : list string) f b : firstn (S (length a)) (a ++ f :: b) = a ++ [f].
Proof. induction a as [|y a IH]; simpl; [reflexivity|]. simpl in IH. rewrite IH. reflexivity. Qed.

(** C8: for a target with at least one matching catalog entry, the result
    is the catalog prefix ending at the last entry starting with
    ["lib." ++ toLowerCase target]. *)
Theorem C8_knownLibFiles_prefix_to_last_match :
  forall t,
    (exists f, In f LibFiles.files /\ LibFiles.matchesTarget t f = true) ->
    exists i f,
      nth_error LibFiles.files i = Some f
      /\ LibFiles.matchesTarget t f = true
      /\ (forall j g, i < j -> nth_error LibFiles.files j = Some g ->
                      LibFiles.matchesTarget t g = false)
      /\ LibFiles.knownLibFilesForTarget t = firstn (S i) LibFiles.files.
Proof.
  intros t [f0 [Hin0 Hm0]].
  assert (Hne : filter (LibFiles.matchesTarget t) LibFiles.files <> []).
  { intros H. assert (Hf : In f0 (filter (LibFiles.matchesTarget t) LibFiles.files))
      by (apply filter_In; tauto). rewrite H in Hf. exact Hf. }
  destruct (filter_last_split _ _ Hne) as [a [f [b [Hxs [Pf Hb]]]]].
  pose proof files_NoDup as Hnd. rewrite Hxs in Hnd.
  assert (Hnin : ~ In f a).
  { intros H. apply (NoDup_remove_2 _ _ _ Hnd). apply in_or_app. left. exact H. }
  exists (length a), f. repeat split.
  - rewrite Hxs, nth_error_app2, Nat.sub_diag by lia. reflexivity.
  - exact Pf.
  - intros j g Hj Hg. rewrite Hxs, nth_error_app2 in Hg by lia.
    destruct (j - length a) as [|k] eqn:Ek; [lia|]. simpl in Hg.
    apply nth_error_In in Hg.
    destruct (LibFiles.matchesTarget t g) eqn:Pg; [|reflexivity].
    assert (Hgf : In g (filter (LibFiles.matchesTarget t) b)) by (apply filter_In; tauto).
    rewrite Hb in Hgf. destruct Hgf.
  - assert (Hr : firstn (S (length a)) LibFiles.files = a ++ [f])
      by (rewrite Hxs; apply firstn_app_cons).
    rewrite Hr.
    unfold LibFiles.knownLibFilesForTarget, LibFiles.slice_to, LibFiles.indexOf.
    rewrite Hxs, filter_app. simpl filter. rewrite Pf, Hb.
    rewrite pop_snoc, indexOf_from_app by exact Hnin.
    replace (Z.to_nat (0 + Z.of_nat (length a) + 1)) with (S (length a)) by lia.
    apply firstn_app_cons.
Qed.

(** C9: the four unsupported System methods throw an error whose message
    names the method, and the store is left as it was. *)
Theorem C9_unsupported_methods_throw :
  forall files : Sys.store,
    Sys.createDirectory files = (Throw "Method 'createDirectory' is not implemented.", files)
    /\ Sys.exit files = (Throw "Method 'exit' is not implemented.", files)
    /\ Sys.write files = (Throw "Method 'write' is not implemented.", files)
    /\ Sys.getExecutingFilePath files
       = (Throw "Method 'getExecutingFilePath' is not implemented.", files)
    /\ String.index 0 "createDirectory" "Method 'createDirectory' is not implemented." = Some 8
    /\ String.index 0 "exit" "Method 'exit' is not implemented." = Some 8
    /\ String.index 0 "write" "Method 'write' is not implemented." = Some 8
    /\ String.index 0 "getExecutingFilePath"
         "Method 'getExecutingFilePath' is not implemented." = Some 8.
Proof. intros files. repeat split. Qed.

(** ** The private copy made by createSystem *)

Lemma deref_update_other h l l' m :
  l <> l' -> Heap.deref (Heap.update h l' m) l = Heap.deref h l.
Proof.
  unfold Heap.deref. revert l l'.
  induction h as [|x h IH]; intros l l' Hne; simpl; [reflexivity|].
  destruct l' as [|l']; destruct l as [|l]; simpl; try reflexivity; try lia.
  apply IH. lia.
Qed.

(** C10: [createSystem] works on a fresh copy of the caller's Map [m] (at
    [l]): the copy starts with [m]'s entries, [writeFile] through the System
    never changes [m], and whatever happens to [m] (any heap that differs
    only at [l]) is invisible to [fileExists], [readFile], [directoryExists]
    and [readDirectory]. *)
Theorem C10_createSystem_private_copy :
  forall h l,
    l < length h ->
    let (h1, s) := Heap.createSystem h l in
    Heap.deref h1 (Heap.sys_files s) = Heap.deref h l
    /\ Heap.deref h1 l = Heap.deref h l
    /\ (forall hA p c, Heap.deref (Heap.writeFile hA s p c) l = Heap.deref hA l)
    /\ (forall hA hB, (forall l', l' <> l -> Heap.deref hA l' = Heap.deref hB l') ->
          forall p d,
            Heap.fileExists hA s p = Heap.fileExists hB s p
            /\ Heap.readFile hA s p = Heap.readFile hB s p
            /\ Heap.directoryExists hA s d = Heap.directoryExists hB s d
            /\ Heap.readDirectory hA s d = Heap.readDirectory hB s d).
Proof.
  intros h l Hl. unfold Heap.createSystem, Heap.new_Map. simpl.
  assert (Hfresh : length h <> l) by lia.
  split; [|split; [|split]].
  - unfold Heap.deref. rewrite app_nth2, Nat.sub_diag by lia. reflexivity.
  - unfold Heap.deref. rewrite app_nth1 by exact Hl. reflexivity.
  - intros hA p c. unfold Heap.writeFile. simpl.
    apply deref_update_other. lia.
  - intros hA hB Hframe p d. simpl.
    unfold Heap.fileExists, Heap.readFile, Heap.directoryExists, Heap.readDirectory. simpl.
    rewrite (Hframe (length h) Hfresh). repeat split.
Qed.

(** ** Witnesses *)

Lemma C4_witness :
  let st1 := snd (Facade.createFile "/a.ts" "let x = 1;" (Facade.create [] [])) in
  Facade.updateFile plainEngine "/b.ts" "2" (mkTextSpan 0 0) st1
  = (Throw "TypeError: Cannot read properties of undefined (reading 'text')", st1)
  /\ Facade.updateFile plainEngine "/a.ts" "2" (mkTextSpan 8 5) st1
     = (Throw "Debug Failure. False expression.", st1).
Proof.
  intros st1.
  destruct (C4_updateFile_throw_iff_no_write plainEngine st1 "/b.ts" "2" (mkTextSpan 0 0))
    as [_ [_ [H1 _]]].
  destruct (C4_updateFile_throw_iff_no_write plainEngine st1 "/a.ts" "2" (mkTextSpan 8 5))
    as [_ [_ [_ H2]]].
  split.
  - apply H1. vm_compute. reflexivity.
  - apply (H2 (mkSourceFile "/a.ts" "let x = 1;")); [vm_compute; reflexivity | simpl; lia | simpl; lia].
Defined.

Lemma C5_witness :
  let ops := [Facade.OpCreateFile "/x/../a.ts" "let x = 1;";
              Facade.OpUpdateFile "/a.ts" "2" (mkTextSpan 8 1);
              Facade.OpUpdateFile "/c.ts" "z" (mkTextSpan 0 0)] in
  Facade.construct plainEngine [] [] = Ok (Facade.create [] [])
  /\ map_get (env_fileVersions (Facade.create [] [])) "/b.ts" = None
  /\ ~ In "/b.ts" (Facade.written plainEngine ops (Facade.create [] []))
  /\ LSHost.getScriptVersion (snd (Facade.exec plainEngine ops (Facade.create [] []))) "/b.ts"
     = "0".
Proof.
  intros ops.
  assert (Hv : map_get (env_fileVersions (Facade.create [] [])) "/b.ts" = None)
    by reflexivity.
  assert (Hn : ~ In "/b.ts" (Facade.written plainEngine ops (Facade.create [] []))).
  { intros H. apply includes_In in H. vm_compute in H. discriminate. }
  split; [reflexivity | split; [exact Hv | split; [exact Hn|]]].
  apply C5_unwritten_path_baseline_version; assumption.
Defined.


Lemma C8_witness :
  (exists f, In f LibFiles.files /\ LibFiles.matchesTarget "ES2015" f = true)
  /\ exists i f,
      nth_error LibFiles.files i = Some f
      /\ LibFiles.matchesTarget "ES2015" f = true
      /\ (forall j g, i < j -> nth_error LibFiles.files j = Some g ->
                      LibFiles.matchesTarget "ES2015" g = false)
      /\ LibFiles.knownLibFilesForTarget "ES2015" = firstn (S i) LibFiles.files.
Proof.
  assert (H : exists f, In f LibFiles.files /\ LibFiles.matchesTarget "ES2015" f = true).
  { exists "lib.es2015.d.ts". split; [simpl; tauto | reflexivity]. }
  split; [exact H|]. apply C8_knownLibFiles_prefix_to_last_match. exact H.
Defined.

Lemma C10_witness :
  0 < length [[("/a.ts", "let x = 1;")]]
  /\ let (h1, s) := Heap.createSystem [[("/a.ts", "let x = 1;")]] 0 in
     Heap.deref h1 (Heap.sys_files s) = Heap.deref [[("/a.ts", "let x = 1;")]] 0
     /\ Heap.deref h1 0 = Heap.deref [[("/a.ts", "let x = 1;")]] 0
     /\ (forall hA p c, Heap.deref (Heap.writeFile hA s p c) 0 = Heap.deref hA 0)
     /\ (forall hA hB, (forall l', l' <> 0 -> Heap.deref hA l' = Heap.deref hB l') ->
           forall p d,
             Heap.fileExists hA s p = Heap.fileExists hB s p
             /\ Heap.readFile hA s p = Heap.readFile hB s p
             /\ Heap.directoryExists hA s d = Heap.directoryExists hB s d
             /\ Heap.readDirectory hA s d = Heap.readDirectory hB s d).
Proof.
  assert (H : 0 < length [[("/a.ts", "let x = 1;")]]) by (simpl; lia).
  split; [exact H|]. apply (C10_createSystem_private_copy _ _ H).
Defined.

(** ** Counterexamples *)

(** C4: the environment is constructed without roots over a store holding
    the default library; after [createFile("/a.ts", ...)] the program holds
    ["/a.ts"] and the default library.  Neither ["/lib.es2015.d.ts"] nor the
    spelling ["/x/../a.ts"] was ever created through the facade, yet
    [updateFile] on each returns normally and writes the patched text. *)
Lemma C4_counterexample :
  let files := [("/lib.es2015.d.ts", "interface Array<T> {}")] in
  let st1 := snd (Facade.createFile "/a.ts" "let x = 1;" (Facade.create files [])) in
  Facade.construct plainEngine files [] = Ok (Facade.create files [])
  /\ fst (Facade.updateFile plainEngine "/lib.es2015.d.ts" "declare var v: number; "
            (mkTextSpan 0 0) st1) = Ok tt
  /\ Sys.readFile (env_files (snd (Facade.updateFile plainEngine "/lib.es2015.d.ts"
                                     "declare var v: number; " (mkTextSpan 0 0) st1)))
       "/lib.es2015.d.ts" = Some "declare var v: number; interface Array<T> {}"
  /\ fst (Facade.updateFile plainEngine "/x/../a.ts" "2" (mkTextSpan 8 1) st1) = Ok tt
  /\ Sys.readFile (env_files (snd (Facade.updateFile plainEngine "/x/../a.ts" "2"
                                     (mkTextSpan 8 1) st1)))
       "/a.ts" = Some "let x = 2;".
Proof. vm_compute. repeat split. Qed.

(** C5: the only call names ["/x/../b.ts"]; ["/b.ts"] is never passed to
    any call, yet its version is ["1"], since [createFile] writes under the
    normalized name. *)
Lemma C5_counterexample :
  Facade.construct plainEngine [] [] = Ok (Facade.create [] [])
  /\ LSHost.getScriptVersion
       (snd (Facade.exec plainEngine [Facade.OpCreateFile "/x/../b.ts" "b"]
                         (Facade.create [] []))) "/b.ts" = "1".
Proof. vm_compute. split; reflexivity. Qed.


(** * Further properties of the code *)

(** ** Maps and object spread *)

Lemma map_get_not_key {V} (m : jsmap V) k : ~ In k (map_keys m) -> map_get m k = None.
Proof.
  intros H. destruct (map_get m k) eqn:E; [|reflexivity].
  exfalso. apply H, map_has_keys. unfold map_has. rewrite E. reflexivity.
Qed.

Lemma map_keys_set {V} (m : jsmap V) k v :
  map_keys (map_set m k v) = if map_has m k then map_keys m else map_keys m ++ [k].
Proof.
  unfold map_has, map_keys. induction m as [|[k' v'] r IH]; simpl; [reflexivity|].
  destruct (String.eqb k k') eqn:E; simpl.
  - apply String.eqb_eq in E. subst. reflexivity.
  - rewrite IH. destruct (map_get r k); reflexivity.
Qed.

Lemma map_set_NoDup {V} (m : jsmap V) k v :
  NoDup (map_keys m) -> NoDup (map_keys (map_set m k v)).
Proof.
  intros H. rewrite map_keys_set. destruct (map_has m k) eqn:E; [exact H|].
  apply NoDup_app; [exact H | constructor; [tauto | constructor] |].
  intros a Ha [Heq|[]]. subst a. apply map_has_keys in Ha. congruence.
Qed.

Lemma spread_NoDup acc src : NoDup (map_keys acc) -> NoDup (map_keys (spread acc src)).
Proof.
  unfold spread. revert acc. induction src as [|[k v] r IH]; intros acc H; simpl; [exact H|].
  apply IH, map_set_NoDup, H.
Qed.

Lemma map_get_spread acc src k :
  NoDup (map_keys src) ->
  map_get (spread acc src) k
  = match map_get src k with Some v => Some v | None => map_get acc k end.
Proof.
  unfold spread. revert acc. induction src as [|[k' v] r IH]; intros acc Hnd; simpl; [reflexivity|].
  inversion Hnd as [|? ? Hnin Hnd']; subst.
  rewrite (IH _ Hnd').
  destruct (String.eqb k k') eqn:E.
  - apply String.eqb_eq in E. subst k'.
    rewrite (map_get_not_key r k Hnin). apply map_get_set_eq.
  - destruct (map_get r k); [reflexivity|].
    apply map_get_set_neq. intros Heq. subst. rewrite String.eqb_refl in E. discriminate.
Qed.

Lemma map_get_spread_nil src k :
  NoDup (map_keys src) -> map_get (spread [] src) k = map_get src k.
Proof. intros H. rewrite (map_get_spread _ _ _ H). destruct (map_get src k); reflexivity. Qed.

Lemma fixedDefaults_NoDup : NoDup (map_keys Options.fixedDefaults).
Proof. apply nodupb_NoDup. vm_compute. reflexivity. Qed.

Lemma defaultCompilerOptions_NoDup tsDefaults :
  NoDup (map_keys (Options.defaultCompilerOptions tsDefaults)).
Proof. apply spread_NoDup, spread_NoDup. constructor. Qed.

(** Merge precedence of [createVirtualTypeScriptEnvironment]'s options: an
    option the caller's object has (even set to [undefined]) wins; otherwise
    one of the nine options [defaultCompilerOptions] fixes takes its fixed
    value; otherwise TypeScript's own default applies. *)
Theorem mergedCompilerOptions_precedence :
  forall tsDefaults compilerOptions k,
    NoDup (map_keys tsDefaults) -> NoDup (map_keys compilerOptions) ->
    map_get (Options.mergedCompilerOptions tsDefaults compilerOptions) k
    = match map_get compilerOptions k with
      | Some v => Some v
      | None => match map_get Options.fixedDefaults k with
                | Some v => Some v
                | None => map_get tsDefaults k
                end
      end.
Proof.
  intros tsd opts k Htsd Hopts.
  unfold Options.mergedCompilerOptions.
  rewrite (map_get_spread _ _ _ Hopts). destruct (map_get opts k); [reflexivity|].
  rewrite (map_get_spread_nil _ _ (defaultCompilerOptions_NoDup tsd)).
  unfold Options.defaultCompilerOptions.
  rewrite (map_get_spread _ _ _ fixedDefaults_NoDup).
  destruct (map_get Options.fixedDefaults k); [reflexivity|].
  apply map_get_spread_nil, Htsd.
Qed.

Lemma default_target tsDefaults :
  prop (Options.defaultCompilerOptions tsDefaults) "target" = Options.ScriptTarget_ES2015.
Proof.
  unfold prop, Options.defaultCompilerOptions.
  rewrite (map_get_spread _ _ _ fixedDefaults_NoDup). reflexivity.
Qed.

(** The facade's [createFile] parses at the merged [target], while the
    compiler host's [getSourceFile] parses at [target || ES2015]: both are
    ES2015 when the caller gives no target, and they differ exactly when the
    merged target is falsy, such as ES3 ([0]) or an explicit [undefined]. *)
Theorem languageVersion_createFile_vs_getSourceFile :
  forall tsDefaults compilerOptions,
    NoDup (map_keys compilerOptions) ->
    let merged := Options.mergedCompilerOptions tsDefaults compilerOptions in
    Options.getSourceFile_languageVersion tsDefaults merged
      = (if js_truthy_val (Options.createFile_languageVersion merged)
         then Options.createFile_languageVersion merged
         else Options.ScriptTarget_ES2015)
    /\ (map_get compilerOptions "target" = None ->
        Options.createFile_languageVersion merged = Options.ScriptTarget_ES2015
        /\ Options.getSourceFile_languageVersion tsDefaults merged = Options.ScriptTarget_ES2015).
Proof.
  intros tsd opts Hopts merged.
  assert (Hg : Options.getSourceFile_languageVersion tsd merged
               = if js_truthy_val (Options.createFile_languageVersion merged)
                 then Options.createFile_languageVersion merged
                 else Options.ScriptTarget_ES2015).
  { unfold Options.getSourceFile_languageVersion, js_or, Options.createFile_languageVersion.
    rewrite default_target. reflexivity. }
  split; [exact Hg|]. intros Hnone.
  assert (Hc : Options.createFile_languageVersion merged = Options.ScriptTarget_ES2015).
  { unfold Options.createFile_languageVersion, prop, merged, Options.mergedCompilerOptions.
    rewrite (map_get_spread _ _ _ Hopts), Hnone.
    rewrite (map_get_spread_nil _ _ (defaultCompilerOptions_NoDup tsd)).
    pose proof (default_target tsd) as Ht. unfold prop in Ht.
    destruct (map_get (Options.defaultCompilerOptions tsd) "target"); [congruence|discriminate]. }
  split; [exact Hc|]. rewrite Hg, Hc. reflexivity.
Qed.

(** ** createVirtualCompilerHost *)

(** [getSourceFile] on a stored path [p] that is not cached parses the
    stored text into a unit named [normalizePath(p)], caches it under that
    name and leaves the store alone; when [p] is already normalized, asking
    again returns the cached unit. *)
Theorem getSourceFile_parses_once :
  forall parseUndefined st p text,
    map_get (env_sourceFiles st) p = None ->
    Sys.readFile (env_files st) p = Some text ->
    let (r, st') := getSourceFile parseUndefined p st in
    r = Ok (ts_createSourceFile p text)
    /\ env_files st' = env_files st
    /\ map_get (env_sourceFiles st') (Path.normalizePath p) = Some (ts_createSourceFile p text)
    /\ (Path.normalizePath p = p ->
        getSourceFile parseUndefined p st' = (Ok (ts_createSourceFile p text), st')).
Proof.
  intros pu st p text Hc Hr. unfold getSourceFile. rewrite Hc, Hr.
  unfold save, bind, modify, ret. simpl. split; [reflexivity|]. split; [reflexivity|].
  split; [apply map_get_set_eq|].
  intros E. unfold getSourceFile. simpl. rewrite E at 1. rewrite map_get_set_eq. reflexivity.
Qed.

(** The compiler host's [updateFile] reports whether the path was already
    cached, writes the text to the store, and makes [getSourceFile] return
    the new unit. *)
Theorem CompilerHost_updateFile_spec :
  forall parseUndefined sf st,
    let (r, st') := CompilerHost.updateFile sf st in
    r = Ok (map_has (env_sourceFiles st) (sf_fileName sf))
    /\ Sys.readFile (env_files st') (sf_fileName sf) = Some (sf_text sf)
    /\ getSourceFile parseUndefined (sf_fileName sf) st' = (Ok sf, st').
Proof.
  intros pu sf st.
  unfold CompilerHost.updateFile, bind, gets, on_files, Sys.writeFile, modify, ret. simpl.
  unfold Sys.readFile, getSourceFile. simpl.
  rewrite !map_get_set_eq. repeat split.
Qed.

(** ** Invariants of the environment *)

Lemma ls_post_Coherent sf st : Coherent st -> Coherent (ls_post sf st).
Proof.
  intros H p sf' Hg. unfold ls_post, Sys.readFile in *. simpl in *.
  destruct (String.eqb (sf_fileName sf) p) eqn:E.
  - apply String.eqb_eq in E. subst p.
    rewrite map_get_set_eq in Hg. inversion Hg; subst sf'.
    split; [reflexivity|]. apply map_get_set_eq.
  - assert (Hne : sf_fileName sf <> p) by (intros Heq; subst; rewrite String.eqb_refl in E; discriminate).
    rewrite map_get_set_neq in Hg by exact Hne.
    rewrite map_get_set_neq by exact Hne. apply H, Hg.
Qed.

Lemma step_Coherent eng st st' : step eng st st' -> Coherent st -> Coherent st'.
Proof.
  intros [o [r Hr]] H.
  destruct (run_op_spec eng o st) as [[sf [_ Hr']] | [e [_ Hr']]];
    rewrite Hr' in Hr; inversion Hr; subst; [apply ls_post_Coherent|]; exact H.
Qed.

(** Through the facade, the compiler host's parsed-unit cache never
    disagrees with the store: every cached unit sits under its own path and
    carries the text stored for it. *)
Theorem facade_cache_coherent :
  forall eng files rootFiles st,
    reachable eng (Facade.create files rootFiles) st -> Coherent st.
Proof.
  intros eng files roots st H.
  assert (H0 : Coherent (Facade.create files roots)) by (intros p sf Hg; discriminate).
  revert H0. induction H as [|x y z Hs _ IH]; intros H0; [exact H0|].
  apply IH, (step_Coherent eng _ _ Hs), H0.
Qed.

(** [getSourceFile] on an already normalized path that is cached or stored
    keeps the cache coherent with the store. *)
Theorem getSourceFile_keeps_coherent :
  forall parseUndefined p st r st',
    Coherent st ->
    Path.normalizePath p = p ->
    (map_has (env_sourceFiles st) p || Sys.fileExists (env_files st) p)%bool = true ->
    getSourceFile parseUndefined p st = (r, st') ->
    Coherent st'.
Proof.
  intros pu p st r st' H Hnp Hex Hg. unfold getSourceFile in Hg.
  destruct (map_get (env_sourceFiles st) p) as [sf|] eqn:Hc.
  - inversion Hg; subst. exact H.
  - unfold Sys.fileExists, map_has in Hex. rewrite Hc in Hex. simpl in Hex.
    unfold Sys.readFile in Hg. destruct (map_get (env_files st) p) as [text|] eqn:Hr;
      [|discriminate].
    unfold save, bind, modify, ret, ts_createSourceFile in Hg. simpl in Hg.
    rewrite Hnp in Hg. inversion Hg; subst. clear Hg.
    intros q sf Hq. simpl in Hq. unfold Sys.readFile. simpl.
    destruct (String.eqb p q) eqn:E.
    + apply String.eqb_eq in E. subst q. rewrite map_get_set_eq in Hq.
      inversion Hq; subst. split; [reflexivity | exact Hr].
    + rewrite map_get_set_neq in Hq
        by (intros Heq; subst; rewrite String.eqb_refl in E; discriminate).
      apply H, Hq.
Qed.

Lemma ls_post_VersionsUnique sf st : VersionsUnique st -> VersionsUnique (ls_post sf st).
Proof.
  intros [Hb Hu]. unfold ls_post. simpl.
  set (n := sf_fileName sf). set (pv := env_projectVersion st).
  assert (Hget : forall p v,
            map_get (map_set (env_fileVersions st) n (nat_toString (S pv))) p = Some v ->
            (p = n /\ v = nat_toString (S pv))
            \/ (p <> n /\ map_get (env_fileVersions st) p = Some v)).
  { intros p v Hp. destruct (String.eqb n p) eqn:E.
    - apply String.eqb_eq in E. subst p. rewrite map_get_set_eq in Hp.
      left. split; [reflexivity | congruence].
    - assert (Hne : n <> p) by (intros Heq; subst; rewrite String.eqb_refl in E; discriminate).
      rewrite map_get_set_neq in Hp by exact Hne. right. split; [congruence | exact Hp]. }
  split.
  - intros p v Hp. destruct (Hget p v Hp) as [[_ ->] | [_ Hp']].
    + exists (S pv). split; [reflexivity | simpl; lia].
    + destruct (Hb p v Hp') as [k [Hk Hr]]. exists k. split; [exact Hk | simpl; lia].
  - intros p q v Hpq Hp Hq.
    destruct (Hget p v Hp) as [[Hpn Hv1] | [Hpn Hp']];
      destruct (Hget q v Hq) as [[Hqn Hv2] | [Hqn Hq']].
    + congruence.
    + destruct (Hb q _ Hq') as [k [Hk Hr]]. rewrite Hv1 in Hk.
      apply nat_toString_inj in Hk. unfold pv in Hk. lia.
    + destruct (Hb p _ Hp') as [k [Hk Hr]]. rewrite Hv2 in Hk.
      apply nat_toString_inj in Hk. unfold pv in Hk. lia.
    + exact (Hu p q v Hpq Hp' Hq').
Qed.

(** Through the facade, every recorded file version is the project version
    of some past update, so no two paths ever report the same version token
    and none is ahead of the project version. *)
Theorem facade_file_versions_unique :
  forall eng files rootFiles st,
    reachable eng (Facade.create files rootFiles) st -> VersionsUnique st.
Proof.
  intros eng files roots st H.
  assert (H0 : VersionsUnique (Facade.create files roots))
    by (split; intros; discriminate).
  revert H0. induction H as [|x y z [o [r Hr]] _ IH]; intros H0; [exact H0|].
  apply IH.
  destruct (run_op_spec eng o x) as [[sf [_ Hr']] | [e [_ Hr']]];
    rewrite Hr' in Hr; inversion Hr; subst; [apply ls_post_VersionsUnique|]; exact H0.
Qed.

Lemma nat_toString_nonempty n : js_truthy (nat_toString n) = true.
Proof.
  unfold js_truthy. destruct (String.eqb (nat_toString n) "") eqn:E; [|reflexivity].
  apply String.eqb_eq in E. exfalso. unfold nat_toString in E.
  apply (f_equal NilEmpty.uint_of_string) in E. rewrite NilEmpty.usu in E.
  simpl in E. inversion E as [Hn].
  pose proof (DecimalNat.Unsigned.of_to n) as Ho. rewrite Hn in Ho. simpl in Ho. subst n.
  discriminate Hn.
Qed.

Lemma ls_post_scriptVersion sf st :
  LSHost.getScriptVersion (ls_post sf st) (sf_fileName sf)
  = LSHost.getProjectVersion (ls_post sf st).
Proof.
  unfold LSHost.getScriptVersion, LSHost.getProjectVersion, ls_post. simpl.
  rewrite map_get_set_eq, nat_toString_nonempty. reflexivity.
Qed.

(** After a facade call returns, the name of the source file it handed to
    the host, [normalizePath(P)] for [createFile(P, C)], has the current
    [getProjectVersion()] token as its script version. *)
Theorem scriptVersion_after_update :
  (forall p c st,
     let st' := snd (Facade.createFile p c st) in
     LSHost.getScriptVersion st' (Path.normalizePath p) = LSHost.getProjectVersion st')
  /\ (forall eng o st st',
        Facade.run_op eng o st = (Ok tt, st') ->
        exists sf, fst (Facade.unitOf eng o st) = Ok sf
                   /\ LSHost.getScriptVersion st' (sf_fileName sf)
                      = LSHost.getProjectVersion st').
Proof.
  split.
  - intros p c st st'. unfold st'. rewrite createFile_spec.
    apply (ls_post_scriptVersion (ts_createSourceFile p c)).
  - intros eng o st st' Hr.
    destruct (run_op_spec eng o st) as [[sf [Hu Hr']] | [e [_ Hr']]];
      rewrite Hr' in Hr; inversion Hr; subst.
    exists sf. split; [exact Hu | apply ls_post_scriptVersion].
Qed.

(** ** The facade's patch at spans past the end of the text *)

Lemma substring_beyond n m s : String.length s <= n -> String.substring n m s = "".
Proof.
  revert n m. induction s as [|c s IH]; intros n m H; simpl.
  - destruct n, m; reflexivity.
  - destruct n as [|n]; simpl in H; [lia|]. apply IH. lia.
Qed.

Lemma substring_whole m s : String.length s <= m -> String.substring 0 m s = s.
Proof.
  revert m. induction s as [|c s IH]; intros m H; simpl.
  - destruct m; reflexivity.
  - destruct m as [|m]; simpl in H; [lia|]. simpl. rewrite IH by lia. reflexivity.
Qed.

Lemma append_empty_r s : (s ++ "")%string = s.
Proof. induction s as [|c s IH]; simpl; [reflexivity | rewrite IH; reflexivity]. Qed.

(** Patching a program file at a span that starts at or after the end of
    its text [T]: with a non-empty span, [updateSourceFile]'s length check
    makes [updateFile] throw before any write; with an empty span, the
    fragment is appended to [T]. *)
Theorem updateFile_span_past_end :
  forall eng st p f sp prev,
    program_getSourceFile eng st p = Some prev ->
    String.length (sf_text prev) <= span_start sp ->
    (0 < span_length sp ->
     Facade.updateFile eng p f sp st = (Throw "Debug Failure. False expression.", st))
    /\ (span_length sp = 0 ->
        exists sf, Facade.updateFile eng p f sp st = (Ok tt, ls_post sf st)
                   /\ sf_text sf = (sf_text prev ++ f)%string).
Proof.
  intros eng st p f sp prev Hp Hs.
  unfold Facade.updateFile, bind. rewrite newSourceFile_spec, Hp, ts_updateSourceFile_splice.
  split.
  - intros HL.
    destruct (Nat.ltb 0 (span_length sp)
              && Nat.ltb (String.length (sf_text prev)) (span_start sp + span_length sp)) eqn:C;
      [reflexivity|].
    apply andb_false_iff in C. destruct C as [C|C]; apply Nat.ltb_ge in C; lia.
  - intros HL.
    assert (Hsp : splice (sf_text prev) f sp = (sf_text prev ++ f)%string).
    { unfold splice. rewrite HL, Nat.add_0_r, substring_whole, substring_beyond by lia.
      rewrite append_empty_r. reflexivity. }
    rewrite HL. simpl.
    destruct (Nat.eqb (String.length f) 0) eqn:F.
    + exists prev. split; [apply LSHost_updateFile_spec|].
      destruct f; [symmetry; apply append_empty_r | discriminate].
    + eexists. split; [apply LSHost_updateFile_spec | exact Hsp].
Qed.

(** ** knownLibFilesForTarget beyond C8 *)

(** The result is always a prefix of the catalog, and it is empty exactly
    when no catalog entry starts with ["lib." ++ toLowerCase target] (as for
    ["ES3"], or the reverse-mapped name ["Latest"]). *)
Theorem knownLibFiles_prefix_or_empty :
  forall t,
    (exists n, LibFiles.knownLibFilesForTarget t = firstn n LibFiles.files)
    /\ (LibFiles.knownLibFilesForTarget t = []
        <-> forall f, In f LibFiles.files -> LibFiles.matchesTarget t f = false).
Proof.
  intros t. split.
  - eexists. reflexivity.
  - destruct (filter (LibFiles.matchesTarget t) LibFiles.files) eqn:Hf.
    + split; intros _.
      * intros f Hin. destruct (LibFiles.matchesTarget t f) eqn:Hm; [|reflexivity].
        assert (H : In f (filter (LibFiles.matchesTarget t) LibFiles.files))
          by (apply filter_In; tauto).
        rewrite Hf in H. destruct H.
      * unfold LibFiles.knownLibFilesForTarget. rewrite Hf. reflexivity.
    + assert (Hne : filter (LibFiles.matchesTarget t) LibFiles.files <> []) by congruence.
      destruct (filter_last_split _ _ Hne) as [a [f [b [Hxs [Pf Hb]]]]].
      split.
      * intros Hemp. exfalso. clear Hf.
        pose proof files_NoDup as Hnd. rewrite Hxs in Hnd.
        assert (Hnin : ~ In f a).
        { intros H. apply (NoDup_remove_2 _ _ _ Hnd). apply in_or_app. left. exact H. }
        assert (Hk : LibFiles.knownLibFilesForTarget t = a ++ [f]).
        { unfold LibFiles.knownLibFilesForTarget, LibFiles.slice_to, LibFiles.indexOf.
          rewrite Hxs, filter_app. simpl filter. rewrite Pf, Hb.
          rewrite pop_snoc, indexOf_from_app by exact Hnin.
          replace (Z.to_nat (0 + Z.of_nat (length a) + 1)) with (S (length a)) by lia.
          apply firstn_app_cons. }
        rewrite Hk in Hemp. destruct a; discriminate.
      * intros Hall. exfalso.
        assert (Hin : In f LibFiles.files) by (rewrite Hxs; apply in_or_app; right; left; reflexivity).
        rewrite (Hall f Hin) in Pf. discriminate.
Qed.

(** ** Library maps *)

Lemma slash_inj a b : ("/" ++ a)%string = ("/" ++ b)%string -> a = b.
Proof. simpl. intros H. inversion H. reflexivity. Qed.

Lemma fill_other entries acc k :
  ~ In k (map (fun e => "/" ++ fst e)%string entries) ->
  map_get (LibMaps.fill entries acc) k = map_get acc k.
Proof.
  unfold LibMaps.fill. revert acc.
  induction entries as [|[l v] r IH]; intros acc H; simpl; [reflexivity|].
  simpl in H. rewrite IH by tauto. apply map_get_set_neq. tauto.
Qed.

Lemma fill_get entries acc e :
  NoDup (map fst entries) -> In e entries ->
  map_get (LibMaps.fill entries acc) ("/" ++ fst e)%string = Some (snd e).
Proof.
  revert acc. induction entries as [|[l v] r IH]; intros acc Hnd Hin; [destruct Hin|].
  inversion Hnd as [|? ? Hnin Hnd']; subst.
  destruct Hin as [<- | Hin].
  - change (map_get (LibMaps.fill r (map_set acc ("/" ++ l)%string v)) ("/" ++ l)%string = Some v).
    rewrite fill_other.
    + apply map_get_set_eq.
    + rewrite in_map_iff. intros [e' [He' Hin']]. apply slash_inj in He'.
      apply Hnin. rewrite <- He'. apply in_map, Hin'.
  - apply (IH _ Hnd' Hin).
Qed.

Lemma fill_keys entries acc :
  NoDup (map fst entries) ->
  (forall e, In e entries -> ~ In ("/" ++ fst e)%string (map_keys acc)) ->
  map_keys (LibMaps.fill entries acc)
  = map_keys acc ++ map (fun e => "/" ++ fst e)%string entries.
Proof.
  revert acc. induction entries as [|[l v] r IH]; intros acc Hnd Hfresh; simpl.
  - symmetry. apply app_nil_r.
  - inversion Hnd as [|? ? Hnin Hnd']; subst.
    change (map_keys (LibMaps.fill r (map_set acc ("/" ++ l)%string v))
            = map_keys acc ++ ("/" ++ l)%string :: map (fun e => "/" ++ fst e)%string r).
    assert (Hk : map_keys (map_set acc ("/" ++ l)%string v) = map_keys acc ++ [("/" ++ l)%string]).
    { rewrite map_keys_set. destruct (map_has acc ("/" ++ l)%string) eqn:E; [|reflexivity].
      exfalso. apply (Hfresh (l, v)); [left; reflexivity|]. apply map_has_keys, E. }
    rewrite IH; [| exact Hnd' |].
    + rewrite Hk, <- app_assoc. reflexivity.
    + intros e He. rewrite Hk. intros Hin. apply in_app_or in Hin as [Hin | [Heq | []]].
      * apply (Hfresh e); [right; exact He | exact Hin].
      * apply slash_inj in Heq. apply Hnin. rewrite Heq. apply in_map, He.
Qed.

Lemma knownLibFiles_NoDup t : NoDup (LibFiles.knownLibFilesForTarget t).
Proof.
  unfold LibFiles.knownLibFilesForTarget, LibFiles.slice_to.
  pose proof files_NoDup as H.
  rewrite <- (firstn_skipn (Z.to_nat (LibFiles.indexOf LibFiles.files
               (LibFiles.pop (filter (LibFiles.matchesTarget t) LibFiles.files)) + 1))
               LibFiles.files) in H.
  exact (NoDup_app_remove_r _ _ H).
Qed.

Lemma fill_entries_spec (g : string -> string) libs :
  NoDup libs ->
  let m := LibMaps.fill (map (fun lib => (lib, g lib)) libs) [] in
  map_keys m = map (fun lib => "/" ++ lib)%string libs
  /\ (forall lib, In lib libs -> map_get m ("/" ++ lib)%string = Some (g lib)).
Proof.
  intros Hnd m.
  assert (Hfst : map fst (map (fun lib => (lib, g lib)) libs) = libs).
  { rewrite map_map. apply map_id. }
  split.
  - unfold m. rewrite fill_keys.
    + simpl. rewrite map_map. reflexivity.
    + rewrite Hfst. exact Hnd.
    + intros e _ [].
  - intros lib Hin. unfold m.
    apply (fill_get _ [] (lib, g lib)).
    + rewrite Hfst. exact Hnd.
    + apply in_map_iff. exists lib. split; [reflexivity | exact Hin].
Qed.

(** [createDefaultMapFromNodeModules(target)] holds exactly the paths
    ['/' + lib] for the libs [knownLibFilesForTarget] lists, in that order,
    each mapped to that lib file's contents as [getLib] reads them. *)
Theorem nodeModules_map_spec :
  forall (getLib : string -> string) t,
    let m := LibMaps.createDefaultMapFromNodeModules getLib t in
    map_keys m = map (fun lib => "/" ++ lib)%string (LibFiles.knownLibFilesForTarget t)
    /\ (forall lib, In lib (LibFiles.knownLibFilesForTarget t) ->
          Sys.readFile m ("/" ++ lib)%string = Some (getLib lib)).
Proof.
  intros g t m. exact (fill_entries_spec g _ (knownLibFiles_NoDup t)).
Qed.

(** Without the cache, [createDefaultMapFromCDN] resolves to a map holding
    exactly ['/' + lib] for the target's libs, in order, each mapped to the
    text fetched from the CDN URL of that TypeScript version and lib. *)
Theorem cdn_uncached_map_spec :
  forall (fetchText : string -> string) version t,
    let m := LibMaps.uncached fetchText version (LibFiles.knownLibFilesForTarget t) in
    map_keys m = map (fun lib => "/" ++ lib)%string (LibFiles.knownLibFilesForTarget t)
    /\ (forall lib, In lib (LibFiles.knownLibFilesForTarget t) ->
          Sys.readFile m ("/" ++ lib)%string
          = Some (fetchText (LibMaps.cdnPrefix version ++ lib)%string)).
Proof.
  intros ft v t m.
  exact (fill_entries_spec (fun lib => ft (LibMaps.cdnPrefix v ++ lib)%string) _
           (knownLibFiles_NoDup t)).
Qed.

(** ** The localStorage cache of createDefaultMapFromCDN *)

Lemma map_get_delete_other {V} (m : jsmap V) k k' :
  k <> k' -> map_get (LibMaps.map_delete m k') k = map_get m k.
Proof.
  intros Hne. induction m as [|[k0 v] r IH]; simpl; [reflexivity|].
  destruct (String.eqb k' k0) eqn:E; simpl.
  - apply String.eqb_eq in E. subst k0.
    destruct (String.eqb k k') eqn:E'; [apply String.eqb_eq in E'; congruence | reflexivity].
  - destruct (String.eqb k k0); [reflexivity | exact IH].
Qed.

Lemma map_get_delete_none {V} (m : jsmap V) k k' :
  map_get m k = None -> map_get (LibMaps.map_delete m k') k = None.
Proof.
  induction m as [|[k0 v] r IH]; simpl; intros H; [reflexivity|].
  destruct (String.eqb k k0) eqn:E; [discriminate|].
  destruct (String.eqb k' k0); simpl; [exact H|]. rewrite E. apply IH, H.
Qed.

Lemma delete_keys_In {V} (m : jsmap V) k x :
  In x (map_keys (LibMaps.map_delete m k)) -> In x (map_keys m).
Proof.
  unfold map_keys. induction m as [|[k0 v] r IH]; simpl; [tauto|].
  destruct (String.eqb k k0); simpl; [tauto|]. intros [H|H]; [left; exact H | right; apply IH, H].
Qed.

Lemma delete_NoDup {V} (m : jsmap V) k :
  NoDup (map_keys m) -> NoDup (map_keys (LibMaps.map_delete m k)).
Proof.
  induction m as [|[k0 v] r IH]; simpl; intros H; [exact H|].
  inversion H as [|? ? Hnin Hnd]; subst.
  destruct (String.eqb k k0); [exact Hnd|].
  simpl. constructor; [|apply IH, Hnd].
  intros Hin. apply Hnin. apply (delete_keys_In r k), Hin.
Qed.

Lemma map_get_delete_self {V} (m : jsmap V) k :
  NoDup (map_keys m) -> map_get (LibMaps.map_delete m k) k = None.
Proof.
  induction m as [|[k0 v] r IH]; simpl; intros H; [reflexivity|].
  inversion H as [|? ? Hnin Hnd]; subst.
  destruct (String.eqb k k0) eqn:E.
  - apply String.eqb_eq in E. subst k0. apply map_get_not_key, Hnin.
  - simpl. rewrite E. apply IH, Hnd.
Qed.

Lemma removeStale_none version ks m k :
  map_get m k = None -> map_get (LibMaps.removeStale version ks m) k = None.
Proof.
  unfold LibMaps.removeStale. revert m.
  induction ks as [|key ks IH]; intros m H; simpl; [exact H|].
  apply IH. unfold LibMaps.dropStale.
  destruct (_ && _)%bool; [apply map_get_delete_none, H | exact H].
Qed.

Lemma removeStale_removes version ks m key :
  NoDup (map_keys m) -> In key ks ->
  String.prefix "ts-lib-" key = true ->
  String.prefix ("ts-lib-" ++ version)%string key = false ->
  map_get (LibMaps.removeStale version ks m) key = None.
Proof.
  unfold LibMaps.removeStale. revert m.
  induction ks as [|k0 ks IH]; intros m Hnd Hin H1 H2; [destruct Hin|]. simpl.
  destruct (String.eqb k0 key) eqn:E.
  - apply String.eqb_eq in E. subst k0.
    apply removeStale_none. unfold LibMaps.dropStale. rewrite H1, H2. simpl.
    apply map_get_delete_self, Hnd.
  - destruct Hin as [Heq | Hin]; [subst; rewrite String.eqb_refl in E; discriminate|].
    apply IH; [|exact Hin|exact H1|exact H2].
    unfold LibMaps.dropStale. destruct (_ && _)%bool; [apply delete_NoDup|]; exact Hnd.
Qed.

Lemma setItem_name_other (f : string -> string) g arrived (m : jsmap string) k :
  k <> g ->
  map_get (fold_left (fun st lib => map_set st g (f lib)) arrived m) k = map_get m k.
Proof.
  intros Hne. revert m. induction arrived as [|l r IH]; intros m; simpl; [reflexivity|].
  rewrite IH. apply map_get_set_neq. congruence.
Qed.

(** What [cached()] leaves in storage: every stale ["ts-lib-"] key of
    another version that [Object.keys(localStorage)] listed is gone, and the
    fetched texts are stored under the global [name] rather than under
    [ts-lib-<version>-<lib>]; so a lib whose cache entry was missing or
    empty still has none afterwards, and every later call fetches it again. *)
Theorem cdn_cached_never_fills_cache :
  forall (fetchText zip : string -> string) version globalName lsKeys storage files arrived,
    NoDup (map_keys storage) ->
    Permutation arrived
      (LibMaps.missingLibs version (LibMaps.removeStale version lsKeys storage) files) ->
    let final := LibMaps.cachedStorage fetchText zip version globalName lsKeys storage arrived in
    (forall key, In key lsKeys -> key <> globalName ->
       String.prefix "ts-lib-" key = true ->
       String.prefix ("ts-lib-" ++ version)%string key = false ->
       map_get final key = None)
    /\ (forall lib,
          In lib (LibMaps.missingLibs version (LibMaps.removeStale version lsKeys storage) files) ->
          LibMaps.cacheKey version lib <> globalName ->
          LibMaps.cacheMiss (map_get final (LibMaps.cacheKey version lib)) = true).
Proof.
  intros ft zip version g ks storage files arrived Hnd _ final. split.
  - intros key Hin Hne H1 H2. unfold final, LibMaps.cachedStorage.
    rewrite setItem_name_other by exact Hne.
    apply removeStale_removes; assumption.
  - intros lib Hin Hne. unfold final, LibMaps.cachedStorage.
    rewrite setItem_name_other by exact Hne.
    unfold LibMaps.missingLibs in Hin. apply filter_In in Hin. tauto.
Qed.

(** ** Witnesses of the further properties *)

Lemma mergedCompilerOptions_precedence_witness :
  map_get (Options.mergedCompilerOptions [("target", JNum 1); ("noEmit", JBool false)]
                                         [("strict", JBool false)]) "strict"
    = Some (JBool false)
  /\ map_get (Options.mergedCompilerOptions [("target", JNum 1); ("noEmit", JBool false)]
                                            [("strict", JBool false)]) "target"
    = Some Options.ScriptTarget_ES2015
  /\ map_get (Options.mergedCompilerOptions [("target", JNum 1); ("noEmit", JBool false)]
                                            [("strict", JBool false)]) "noEmit"
    = Some (JBool false).
Proof.
  assert (H1 : NoDup (map_keys [("target", JNum 1); ("noEmit", JBool false)]))
    by (apply nodupb_NoDup; reflexivity).
  assert (H2 : NoDup (map_keys [("strict", JBool false)]))
    by (apply nodupb_NoDup; reflexivity).
  split; [|split];
    (rewrite (mergedCompilerOptions_precedence _ _ _ H1 H2); reflexivity).
Defined.

Lemma languageVersion_createFile_vs_getSourceFile_witness :
  Options.getSourceFile_languageVersion []
      (Options.mergedCompilerOptions [] [("target", JNum 0)])
    = Options.ScriptTarget_ES2015
  /\ Options.createFile_languageVersion (Options.mergedCompilerOptions [] [("target", JNum 0)])
    = JNum 0.
Proof.
  assert (H : NoDup (map_keys [("target", JNum 0)])) by (apply nodupb_NoDup; reflexivity).
  destruct (languageVersion_createFile_vs_getSourceFile [] _ H) as [Hg _].
  split; [rewrite Hg; reflexivity | reflexivity].
Defined.

Lemma getSourceFile_parses_once_witness :
  let st := Facade.create [("/x/../a.ts", "let x = 1;")] [] in
  let pu := fun p : string => @throw Env SourceFile "undefined text" in
  let (r, st') := getSourceFile pu "/x/../a.ts" st in
  r = Ok (ts_createSourceFile "/x/../a.ts" "let x = 1;")
  /\ env_files st' = env_files st
  /\ map_get (env_sourceFiles st') (Path.normalizePath "/x/../a.ts")
     = Some (ts_createSourceFile "/x/../a.ts" "let x = 1;")
  /\ (Path.normalizePath "/x/../a.ts" = "/x/../a.ts" ->
      getSourceFile pu "/x/../a.ts" st'
      = (Ok (ts_createSourceFile "/x/../a.ts" "let x = 1;"), st')).
Proof.
  intros st pu.
  exact (getSourceFile_parses_once pu st "/x/../a.ts" "let x = 1;" eq_refl eq_refl).
Defined.

Lemma facade_cache_coherent_witness :
  Coherent (snd (Facade.createFile "/a.ts" "x" (Facade.create [] []))).
Proof.
  apply (facade_cache_coherent plainEngine [] []).
  eapply Relation_Operators.rt1n_trans; [exists (Facade.OpCreateFile "/a.ts" "x"), (Ok tt); reflexivity|].
  apply rt1n_refl.
Defined.

Lemma getSourceFile_keeps_coherent_witness :
  let st := Facade.create [("/a.ts", "let x = 1;")] [] in
  let pu := fun p : string => @throw Env SourceFile "undefined text" in
  Coherent (snd (getSourceFile pu "/a.ts" st)).
Proof.
  intros st pu.
  apply (getSourceFile_keeps_coherent pu "/a.ts" st (fst (getSourceFile pu "/a.ts" st))).
  - intros p sf H. discriminate.
  - vm_compute. reflexivity.
  - reflexivity.
  - reflexivity.
Defined.

Lemma facade_file_versions_unique_witness :
  VersionsUnique (snd (Facade.createFile "/b.ts" "y"
                    (snd (Facade.createFile "/a.ts" "x" (Facade.create [] []))))).
Proof.
  apply (facade_file_versions_unique plainEngine [] []).
  eapply Relation_Operators.rt1n_trans; [exists (Facade.OpCreateFile "/a.ts" "x"), (Ok tt); reflexivity|].
  eapply Relation_Operators.rt1n_trans; [exists (Facade.OpCreateFile "/b.ts" "y"), (Ok tt); reflexivity|].
  apply rt1n_refl.
Defined.

Lemma updateFile_span_past_end_witness :
  let st1 := snd (Facade.createFile "/a.ts" "let x = 1;" (Facade.create [] [])) in
  Facade.updateFile plainEngine "/a.ts" "2" (mkTextSpan 10 2) st1
  = (Throw "Debug Failure. False expression.", st1)
  /\ exists sf, Facade.updateFile plainEngine "/a.ts" " // y" (mkTextSpan 12 0) st1
                = (Ok tt, ls_post sf st1)
                /\ sf_text sf = "let x = 1; // y".
Proof.
  intros st1.
  destruct (updateFile_span_past_end plainEngine st1 "/a.ts" "2" (mkTextSpan 10 2)
              (mkSourceFile "/a.ts" "let x = 1;")) as [H1 _];
    [vm_compute; reflexivity | simpl; lia |].
  destruct (updateFile_span_past_end plainEngine st1 "/a.ts" " // y" (mkTextSpan 12 0)
              (mkSourceFile "/a.ts" "let x = 1;")) as [_ H2];
    [vm_compute; reflexivity | simpl; lia |].
  split; [apply H1; simpl; lia|].
  destruct (H2 eq_refl) as [sf [E T]]. exists sf. split; [exact E | rewrite T; reflexivity].
Defined.

Lemma cdn_cached_never_fills_cache_witness :
  let ft := fun url : string => "declare var x: number;" in
  let storage := [("ts-lib-3.7.3-lib.d.ts", "old")] in
  let ks := ["ts-lib-3.7.3-lib.d.ts"] in
  LibMaps.cacheMiss
    (map_get (LibMaps.cachedStorage ft (fun s => s) "3.8.3" "" ks storage ["lib.d.ts"])
             (LibMaps.cacheKey "3.8.3" "lib.d.ts")) = true.
Proof.
  intros ft storage ks.
  apply (cdn_cached_never_fills_cache ft (fun s => s) "3.8.3" "" ks storage ["lib.d.ts"]
           ["lib.d.ts"]).
  - apply nodupb_NoDup. reflexivity.
  - apply Permutation_refl.
  - left. reflexivity.
  - discriminate.
Defined.
